(** * Tutor agent: task manager and agent, embedded and verified

    A shallow embedding of [tutor_task_manager.py] and [tutor_agent.py].

    Python values are modelled as follows.
    - [str] is [string].  [lower], [strip] and [capitalize] act on the ASCII
      range; bytes above 127 pass through unchanged.
    - a dict used as a map ([self.tasks], [self.task_messages]) is a [gmap];
      a dict used as a record (the agent's result) is a [Record].
    - a raising computation returns [Raise e]; stateful code threads the
      manager through a small state-and-exception monad in which the state
      reached before a [raise] is kept, as it is for a mutated Python object.
    - [uuid4().hex] and the outcome of [Crew.kickoff] come from an explicit
      environment argument. *)

From Stdlib Require Import String Ascii List ZArith Lia Bool DecimalString.
From stdpp Require Import base option list gmap strings.

Local Open Scope string_scope.
Local Open Scope Z_scope.

(** ** Python built-ins on [str] *)

Module Py.

Definition dquote : ascii := ascii_of_nat 34.
Definition squote : ascii := ascii_of_nat 39.
Definition backslash : ascii := ascii_of_nat 92.
Definition newline : ascii := ascii_of_nat 10.
Definition colon : ascii := ascii_of_nat 58.

Definition code (c : ascii) : nat := nat_of_ascii c.

Definition is_upper (c : ascii) : bool :=
  (65 <=? code c)%nat && (code c <=? 90)%nat.

Definition is_lower (c : ascii) : bool :=
  (97 <=? code c)%nat && (code c <=? 122)%nat.

Definition lower_char (c : ascii) : ascii :=
  if is_upper c then ascii_of_nat (code c + 32) else c.

Definition upper_char (c : ascii) : ascii :=
  if is_lower c then ascii_of_nat (code c - 32) else c.

(** [str.isspace] on the ASCII range: TAB, LF, VT, FF, CR, FS, GS, RS, US
    and the space. *)
Definition is_space (c : ascii) : bool :=
  ((9 <=? code c)%nat && (code c <=? 13)%nat)
  || ((28 <=? code c)%nat && (code c <=? 32)%nat).

Fixpoint smap (f : ascii → ascii) (s : string) : string :=
  match s with
  | EmptyString => EmptyString
  | String c r => String (f c) (smap f r)
  end.

(** [s.lower()] *)
Definition lower (s : string) : string := smap lower_char s.

(** [s.capitalize()] *)
Definition capitalize (s : string) : string :=
  match s with
  | EmptyString => EmptyString
  | String c r => String (upper_char c) (lower r)
  end.

(** [s.replace(a, b)] for one-character [a] and [b] *)
Definition replace_char (a b : ascii) (s : string) : string :=
  smap (λ c, if Ascii.eqb c a then b else c) s.

Fixpoint lstrip (s : string) : string :=
  match s with
  | EmptyString => EmptyString
  | String c r => if is_space c then lstrip r else s
  end.

Fixpoint rstrip (s : string) : string :=
  match s with
  | EmptyString => EmptyString
  | String c r =>
      match rstrip r with
      | EmptyString => if is_space c then EmptyString else String c EmptyString
      | r' => String c r'
      end
  end.

(** [s.strip()] *)
Definition strip (s : string) : string := rstrip (lstrip s).

(** [sub in s] *)
Fixpoint contains (sub s : string) : bool :=
  String.prefix sub s ||
  match s with
  | EmptyString => false
  | String _ r => contains sub r
  end.

(** [c in s] for one character *)
Fixpoint has_char (c : ascii) (s : string) : bool :=
  match s with
  | EmptyString => false
  | String c' r => Ascii.eqb c' c || has_char c r
  end.

(** [s.split(sep)] for a one-character separator: never the empty list. *)
Fixpoint split (sep : ascii) (s : string) : list string :=
  match s with
  | EmptyString => [EmptyString]
  | String c r =>
      if Ascii.eqb c sep then EmptyString :: split sep r
      else match split sep r with
           | h :: t => String c h :: t
           | [] => [String c EmptyString]
           end
  end.

(** [s.split(sep, 1)]: at most one cut, at the first separator. *)
Fixpoint split1 (sep : ascii) (s : string) : list string :=
  match s with
  | EmptyString => [EmptyString]
  | String c r =>
      if Ascii.eqb c sep then [EmptyString; r]
      else match split1 sep r with
           | h :: t => String c h :: t
           | [] => [String c EmptyString]
           end
  end.

(** [sep.join(l)] *)
Fixpoint join (sep : string) (l : list string) : string :=
  match l with
  | [] => EmptyString
  | [x] => x
  | x :: r => x ++ sep ++ join sep r
  end.

(** [str(n)] for an [int] *)
Definition str_int (n : Z) : string := NilZero.string_of_int (Z.to_int n).

Definition hex_digit (n : nat) : ascii :=
  if (n <? 10)%nat then ascii_of_nat (48 + n) else ascii_of_nat (87 + n).

(** One character of [repr(s)], inside the quotes [q]. *)
Definition repr_char (q c : ascii) : string :=
  if Ascii.eqb c q || Ascii.eqb c backslash then String backslash (String c EmptyString)
  else if (code c =? 9)%nat then String backslash "t"
  else if (code c =? 10)%nat then String backslash "n"
  else if (code c =? 13)%nat then String backslash "r"
  else if (code c <? 32)%nat || (code c =? 127)%nat then
    String backslash (String "x" (String (hex_digit (code c / 16))
                                   (String (hex_digit (code c mod 16)) EmptyString)))
  else String c EmptyString.

Fixpoint repr_body (q : ascii) (s : string) : string :=
  match s with
  | EmptyString => EmptyString
  | String c r => repr_char q c ++ repr_body q r
  end.

(** [repr(s)] for a [str]: single quotes unless the text has a single quote
    and no double quote. *)
Definition repr (s : string) : string :=
  let q := if contains (String squote EmptyString) s
              && negb (contains (String dquote EmptyString) s)
           then dquote else squote in
  String q (repr_body q s ++ String q EmptyString).

(** [str(l)] for a list of [str] *)
Definition str_list (l : list string) : string :=
  "[" ++ join ", " (map repr l) ++ "]".

End Py.

(** ** Exceptions and outcomes *)

(** The subclasses of [Exception] that the program raises or meets, and any
    other one with its class name and its [str()]. *)
Inductive Exception : Type :=
  | ValueError (msg : string)
  | KeyError (key : string)
  | IndexError (msg : string)
  | NotImplementedError (msg : string)
  | OtherException (cls msg : string).

(** [str(e)]: a [KeyError] shows the [repr] of its key. *)
Definition str_exc (e : Exception) : string :=
  match e with
  | ValueError m => m
  | KeyError k => Py.repr k
  | IndexError m => m
  | NotImplementedError m => m
  | OtherException _ m => m
  end.

Inductive Outcome (T : Type) : Type :=
  | Ok (v : T)
  | Raise (e : Exception).
Arguments Ok {T} v.
Arguments Raise {T} e.


(** ** [str.format] *)

Module PyFormat.
Import Py.

(** Keyword arguments of [str.format], each value already converted by
    [str()]. *)
Definition kwargs : Type := list (string * string).

Fixpoint lookup_kw (k : string) (kw : kwargs) : option string :=
  match kw with
  | [] => None
  | (k', v) :: r => if String.eqb k k' then Some v else lookup_kw k r
  end.

Definition is_digit (c : ascii) : bool :=
  (48 <=? code c)%nat && (code c <=? 57)%nat.

(** A field name the scanner handles: not empty (automatic numbering) and
    not starting with a digit (positional index). *)
Definition plain_name (n : string) : bool :=
  match n with
  | EmptyString => false
  | String c _ => negb (is_digit c)
  end.

Inductive FmtMode : Type :=
  | InText
  | InName (acc : string)
  | InSpec (name : string).

Definition emit (pre : string) (o : option (Outcome string)) : option (Outcome string) :=
  match o with
  | Some (Ok s) => Some (Ok (pre ++ s))
  | other => other
  end.

(** [template.format] with keyword arguments [kw], scanned left to right as
    the interpreter does, for the fragment: literal text, doubled braces, a
    field [{name}] with a known or unknown name, and a
    field [{name:spec}] whose name is no keyword (a [KeyError] on the name,
    raised once the closing brace of the field is found).  [None] means the
    template leaves that fragment (conversions, format specs on a known
    name, attribute or index access, nested or unbalanced braces). *)
Fixpoint format_scan (m : FmtMode) (t : string) (kw : kwargs) : option (Outcome string) :=
  match m, t with
  | InText, EmptyString => Some (Ok EmptyString)
  | InText, String c r =>
      if Ascii.eqb c "{" then
        match r with
        | String c' r' =>
            if Ascii.eqb c' "{" then emit "{" (format_scan InText r' kw)
            else format_scan (InName EmptyString) r kw
        | EmptyString => None
        end
      else if Ascii.eqb c "}" then
        match r with
        | String c' r' =>
            if Ascii.eqb c' "}" then emit "}" (format_scan InText r' kw) else None
        | EmptyString => None
        end
      else emit (String c EmptyString) (format_scan InText r kw)
  | InName _, EmptyString => None
  | InName acc, String c r =>
      if Ascii.eqb c "}" then
        if plain_name acc then
          match lookup_kw acc kw with
          | Some v => emit v (format_scan InText r kw)
          | None => Some (Raise (KeyError acc))
          end
        else None
      else if Ascii.eqb c colon then
        if plain_name acc then format_scan (InSpec acc) r kw else None
      else if Ascii.eqb c "{" || Ascii.eqb c "[" || Ascii.eqb c "." || Ascii.eqb c "!"
      then None
      else format_scan (InName (acc ++ String c EmptyString)) r kw
  | InSpec _, EmptyString => None
  | InSpec name, String c r =>
      if Ascii.eqb c "}" then
        match lookup_kw name kw with
        | Some _ => None
        | None => Some (Raise (KeyError name))
        end
      else if Ascii.eqb c "{" then None
      else format_scan (InSpec name) r kw
  end.

Section Format.
(** What the interpreter does on a template outside the scanned fragment. *)
Variable beyond : string → kwargs → Outcome string.

Definition format (t : string) (kw : kwargs) : Outcome string :=
  match format_scan InText t kw with
  | Some o => o
  | None => beyond t kw
  end.
End Format.

End PyFormat.

(** ** A state-and-exception monad

    [M S T] is a computation over a mutable object of type [S] that returns
    a [T] or raises.  The state reached when an exception is raised is kept:
    an assignment made before a [raise] is not undone. *)

Definition M (S T : Type) : Type := S → S * Outcome T.

Definition ret {S T : Type} (v : T) : M S T := λ s, (s, Ok v).

Definition raise {S T : Type} (e : Exception) : M S T := λ s, (s, Raise e).

Definition bind {S T U : Type} (m : M S T) (k : T → M S U) : M S U :=
  λ s, match m s with
       | (s', Ok v) => k v s'
       | (s', Raise e) => (s', Raise e)
       end.

(** [try: body  except Exception as e: handler e] *)
Definition try_except {S T : Type} (body : M S T) (handler : Exception → M S T) : M S T :=
  λ s, match body s with
       | (s', Raise e) => handler e s'
       | done => done
       end.

Definition get {S : Type} : M S S := λ s, (s, Ok s).

Definition put {S : Type} (s : S) : M S unit := λ _, (s, Ok tt).

Definition lift {S T : Type} (o : Outcome T) : M S T := λ s, (s, o).

Notation "'let!' x ':=' m 'in' k" := (bind m (λ x, k))
  (at level 10, x name, m at level 100, k at level 200).

(** The same sequencing for code without state. *)
Definition obind {T U : Type} (o : Outcome T) (k : T → Outcome U) : Outcome U :=
  match o with
  | Ok v => k v
  | Raise e => Raise e
  end.

Notation "'let?' x ':=' o 'in' k" := (obind o (λ x, k))
  (at level 10, x name, o at level 100, k at level 200).

(** ** The agent: [tutor_agent.py] *)

Module TutorAgent.
Import Py PyFormat.

(** A gap dict, with its keys in insertion order. *)
Record LearningGap : Type := mkGap {
  gap_id : string;
  gap_topic : string;
  gap_description : string;
  gap_severity : Z;
  gap_recommended_materials : list string
}.

Record Resource : Type := mkResource {
  res_title : string;
  res_type : string;
  res_difficulty : string;
  res_url : string
}.

Record Assessment : Type := mkAssessment {
  assessed_level : string;
  identified_gaps : list LearningGap
}.

Record LearningPlan : Type := mkPlan {
  plan_id : string;
  student_level : string;
  gaps : list LearningGap;
  recommended_resources : list Resource;
  milestones : list string;
  estimated_time : Z
}.

(** The dict that [invoke] returns: [{"error": ...}] or
    [{"assessment": ..., "learning_plan": ...}]. *)
Inductive Result : Type :=
  | ErrorResult (error : string)
  | PlanResult (assessment : Assessment) (learning_plan : LearningPlan).

(** The dict that [parse_student_info] returns. *)
Record StudentInfo : Type := mkInfo {
  topic : string;
  student_background : string;
  student_goals : string
}.

(** The fields of the agent object that [invoke] reads or writes: the
    descriptions of [self.assessment_task] and [self.materials_task]. *)
Record Agent : Type := mkAgent {
  assessment_task_description : string;
  materials_task_description : string
}.

(** What a call of [invoke] takes from outside the program: the behaviour
    of [str.format] outside the scanned fragment, the three values of
    [uuid4().hex] in the order they are drawn, and the outcome of
    [self.tutor_crew.kickoff()], a call that is taken not to write the two
    task descriptions. *)
Record World : Type := mkWorld {
  format_beyond : string → kwargs → Outcome string;
  uuid_gap1 : string;
  uuid_gap2 : string;
  uuid_plan : string;
  kickoff : Outcome string
}.

Definition SUPPORTED_CONTENT_TYPES : list string := ["text"; "text/plain"].

(** The agent after [__init__]. *)
Definition init : Agent :=
  {| assessment_task_description :=
       "Analyze the student's information: topic of interest '{topic}', "
       ++ "background '{student_background}', and goals '{student_goals}'. "
       ++ "Use the AssessStudentTool to conduct a thorough assessment and identify learning gaps.";
     materials_task_description :=
       "Based on the assessment results, create personalized learning materials for the student. "
       ++ "Topic: '{topic}', Identified gaps: {identified_gaps}, Student level: {student_level}, "
       ++ "Student goals: '{student_goals}'. Use the CreateLearningMaterialsTool to generate "
       ++ "a customized learning plan with appropriate resources and milestones." |}.

(** [l[1]] *)
Definition item1 (l : list string) : Outcome string :=
  match l with
  | _ :: x :: _ => Ok x
  | _ => Raise (IndexError "list index out of range")
  end.

(** The value of a field line: [line.split(":", 1)[1].strip()]. *)
Definition field_value (line : string) : Outcome string :=
  let? v := item1 (split1 colon line) in Ok (strip v).

(** One turn of the loop of [parse_student_info]. *)
Definition parse_line (info : StudentInfo) (line : string) : Outcome StudentInfo :=
  if contains "topic:" (lower line) then
    let? v := field_value line in
    Ok {| topic := v;
          student_background := student_background info;
          student_goals := student_goals info |}
  else if contains "background:" (lower line) then
    let? v := field_value line in
    Ok {| topic := topic info;
          student_background := v;
          student_goals := student_goals info |}
  else if contains "goals:" (lower line) then
    let? v := field_value line in
    Ok {| topic := topic info;
          student_background := student_background info;
          student_goals := v |}
  else Ok info.

Fixpoint parse_lines (info : StudentInfo) (lines : list string) : Outcome StudentInfo :=
  match lines with
  | [] => Ok info
  | line :: rest => let? info' := parse_line info line in parse_lines info' rest
  end.

Definition parse_student_info (query : string) : Outcome StudentInfo :=
  parse_lines {| topic := ""; student_background := ""; student_goals := "" |}
              (split newline (strip query)).

(** [str(gap)] for a gap dict. *)
Definition str_gap (g : LearningGap) : string :=
  "{'id': " ++ repr (gap_id g)
  ++ ", 'topic': " ++ repr (gap_topic g)
  ++ ", 'description': " ++ repr (gap_description g)
  ++ ", 'severity': " ++ str_int (gap_severity g)
  ++ ", 'recommended_materials': " ++ str_list (gap_recommended_materials g)
  ++ "}".

Definition str_gaps (l : list LearningGap) : string :=
  "[" ++ join ", " (map str_gap l) ++ "]".

Definition slug (s : string) : string := replace_char " " "-" (lower s).

(** The two resources made for one gap. *)
Definition gap_resources (level : string) (gap : LearningGap) : list Resource :=
  [ {| res_title := "Understanding " ++ gap_topic gap;
       res_type := "article";
       res_difficulty := if String.eqb level "beginner" then "beginner" else "intermediate";
       res_url := "https://example.com/learn/" ++ slug (gap_topic gap) |};
    {| res_title := "Interactive " ++ gap_topic gap ++ " Exercises";
       res_type := "practice";
       res_difficulty := level;
       res_url := "https://example.com/practice/" ++ slug (gap_topic gap) |} ].

Definition with_defaults (info : StudentInfo) : StudentInfo :=
  {| topic := topic info;
     student_background :=
       if String.eqb (student_background info) "" then "No background information provided."
       else student_background info;
     student_goals :=
       if String.eqb (student_goals info) "" then "General knowledge improvement."
       else student_goals info |}.

Definition simulated_assessment (w : World) (info : StudentInfo) : Assessment :=
  {| assessed_level := "intermediate";
     identified_gaps :=
       [ {| gap_id := uuid_gap1 w;
            gap_topic := "Fundamentals of " ++ topic info;
            gap_description := "Gaps in basic understanding of " ++ topic info ++ " fundamentals";
            gap_severity := 3;
            gap_recommended_materials := ["Basic tutorials"; "Introductory courses"] |};
         {| gap_id := uuid_gap2 w;
            gap_topic := "Advanced " ++ topic info ++ " concepts";
            gap_description := "Limited knowledge of advanced " ++ topic info ++ " principles";
            gap_severity := 4;
            gap_recommended_materials := ["Advanced courses"; "Technical documentation"] |} ] |}.

Definition wants_advanced (goals : string) : bool :=
  contains "mastery" (lower goals) || contains "advanced" (lower goals).

Definition simulated_plan (w : World) (info : StudentInfo) (a : Assessment) : LearningPlan :=
  let adv := wants_advanced (student_goals info) in
  {| plan_id := uuid_plan w;
     student_level := assessed_level a;
     gaps := identified_gaps a;
     recommended_resources :=
       concat (map (gap_resources (assessed_level a)) (identified_gaps a))
       ++ (if adv then
             [ {| res_title := "Advanced " ++ topic info ++ " Masterclass";
                  res_type := "course";
                  res_difficulty := "advanced";
                  res_url := "https://example.com/courses/advanced-" ++ slug (topic info) |} ]
           else []);
     milestones :=
       map (λ gap, "Master the basics of " ++ gap_topic gap) (identified_gaps a)
       ++ (if adv then ["Complete advanced " ++ topic info ++ " project"] else []);
     estimated_time := 20 |}.

(** The body of the outer [try] of [invoke]. *)
Definition generate (w : World) (info : StudentInfo) : M Agent Result :=
  let! self := get in
  let! formatted_assessment_description :=
    lift (format (format_beyond w) (assessment_task_description self)
            [("topic", topic info);
             ("student_background", student_background info);
             ("student_goals", student_goals info)]) in
  let! _ := put {| assessment_task_description := formatted_assessment_description;
                   materials_task_description := materials_task_description self |} in
  let assessment_data := simulated_assessment w info in
  let! self := get in
  let! formatted_materials_description :=
    lift (format (format_beyond w) (materials_task_description self)
            [("topic", topic info);
             ("identified_gaps", str_gaps (identified_gaps assessment_data));
             ("student_level", assessed_level assessment_data);
             ("student_goals", student_goals info)]) in
  let! _ := put {| assessment_task_description := assessment_task_description self;
                   materials_task_description := formatted_materials_description |} in
  let! _ := try_except (let! _ := lift (kickoff w) in ret tt) (λ _, ret tt) in
  ret (PlanResult assessment_data (simulated_plan w info assessment_data)).

(** [TutorAgent.invoke(self, query, session_id)], the agent being the state. *)
Definition invoke (w : World) (query session_id : string) : M Agent Result :=
  let! student_info := lift (parse_student_info query) in
  if String.eqb (topic student_info) "" then
    ret (ErrorResult "Please specify a topic of interest.")
  else
    try_except
      (generate w (with_defaults student_info))
      (λ e, ret (ErrorResult ("Failed to generate learning plan: " ++ str_exc e))).

Definition gap_line (gap : LearningGap) : string :=
  "- " ++ gap_topic gap ++ ": " ++ gap_description gap
  ++ " (Severity: " ++ str_int (gap_severity gap) ++ "/5)" ++ String newline "".

Definition resource_line (r : Resource) : string :=
  "- [" ++ res_title r ++ "](" ++ res_url r ++ ") - " ++ capitalize (res_type r)
  ++ ", " ++ res_difficulty r ++ " level" ++ String newline "".

(** The loop over [enumerate(plan["milestones"], 1)], from index [i]. *)
Fixpoint milestone_lines (i : Z) (l : list string) : string :=
  match l with
  | [] => ""
  | m :: r => str_int i ++ ". " ++ m ++ String newline "" ++ milestone_lines (i + 1) r
  end.

Definition nl : string := String newline "".

(** [TutorAgent.get_formatted_response(self, result)] *)
Definition get_formatted_response (result : Result) : string :=
  match result with
  | ErrorResult error => "Error: " ++ error
  | PlanResult assessment plan =>
      "# Personalized Learning Plan" ++ nl ++ nl
      ++ "## Student Assessment" ++ nl
      ++ "Current knowledge level: " ++ assessed_level assessment ++ nl ++ nl
      ++ "## Identified Learning Gaps" ++ nl
      ++ String.concat "" (map gap_line (identified_gaps assessment))
      ++ nl ++ "## Recommended Learning Resources" ++ nl
      ++ String.concat "" (map resource_line (recommended_resources plan))
      ++ nl ++ "## Learning Milestones" ++ nl
      ++ milestone_lines 1 (milestones plan)
      ++ nl ++ "## Estimated Time to Complete: " ++ str_int (estimated_time plan)
      ++ " hours" ++ nl
  end.

End TutorAgent.

(** ** The protocol types

    [agent2agent.types] is not part of the sources at hand; the types below
    carry the fields that the task manager reads and writes, as the data
    model describes them. *)

Inductive TaskState : Type := SUBMITTED | COMPLETED | FAILED.

(** A content part: a [TextPart], or a part of another type. *)
Inductive Part : Type :=
  | TextPart (text : string)
  | OtherPart (type : string).

Module Message.
Record t : Type := mk { role : string; parts : list Part }.
End Message.

Module TaskStatus.
Record t : Type := mk { state : TaskState; message : option Message.t }.
End TaskStatus.

Module Artifact.
Record t : Type := mk { parts : list Part }.
End Artifact.

Module Task.
Record t : Type := mk {
  id : string;
  sessionId : string;
  status : TaskStatus.t;
  artifacts : option (list Artifact.t)
}.
End Task.

Module TaskSendParams.
Record t : Type := mk {
  id : string;
  sessionId : string;
  message : option Message.t;
  acceptedOutputModes : list string
}.
End TaskSendParams.

(** [SendTaskRequest] and [SendTaskStreamingRequest] have the same shape. *)
Module SendTaskRequest.
Record t : Type := mk { id : string; params : TaskSendParams.t }.
End SendTaskRequest.

Inductive JSONRPCError : Type := IncompatibleContentTypes.

Module SendTaskResponse.
Record t : Type := mk {
  id : string;
  result : option Task.t;
  error : option JSONRPCError
}.
End SendTaskResponse.

(** ** The task manager: [tutor_task_manager.py] *)

(** The manager object: the agent it was built with, and the two dicts of
    the in-memory store. *)
Record Manager (A : Type) : Type := mkManager {
  agent : A;
  tasks : gmap string Task.t;
  task_messages : gmap string (list Message.t)
}.
Arguments mkManager {A} _ _ _.
Arguments agent {A} _.
Arguments tasks {A} _.
Arguments task_messages {A} _.

(** Modelled from the spec: [utils.are_modalities_compatible], which is not
    part of the sources at hand.  The accepted modes are compatible when
    they share a member with the supported ones. *)
Definition are_modalities_compatible (accepted supported : list string) : bool :=
  existsb (λ x, existsb (String.eqb x) supported) accepted.

(** Modelled from the spec: [utils.new_incompatible_types_error], which is
    not part of the sources at hand: an error response for the request id,
    without a task. *)
Definition new_incompatible_types_error (request_id : string) : SendTaskResponse.t :=
  {| SendTaskResponse.id := request_id;
     SendTaskResponse.result := None;
     SendTaskResponse.error := Some IncompatibleContentTypes |}.

Section TaskManager.
Context {A R : Type}.

(** The two methods of the agent that the manager calls. *)
Variable agent_invoke : string → string → M A R.
Variable agent_get_formatted_response : R → M A string.

(** [_validate_request] is inherited and not part of the sources at hand:
    it returns an error response or nothing. *)
Variable _validate_request : SendTaskRequest.t → option SendTaskResponse.t.

(** A method call on [self.agent]. *)
Definition on_agent {T : Type} (m : M A T) : M (Manager A) T :=
  λ self, match m (agent self) with
          | (a, o) => ({| agent := a; tasks := tasks self;
                          task_messages := task_messages self |}, o)
          end.

(** Modelled from the spec: [InMemoryTaskManager.upsert_task], which is not
    part of the sources at hand.  An existing task is returned as it is; a
    new one is stored in state [SUBMITTED], its message history seeded with
    the initial message when there is one. *)
Definition upsert_task (p : TaskSendParams.t) : M (Manager A) Task.t :=
  λ self, match tasks self !! TaskSendParams.id p with
          | Some task => (self, Ok task)
          | None =>
              let task := {| Task.id := TaskSendParams.id p;
                             Task.sessionId := TaskSendParams.sessionId p;
                             Task.status := {| TaskStatus.state := SUBMITTED;
                                               TaskStatus.message := None |};
                             Task.artifacts := None |} in
              ({| agent := agent self;
                  tasks := <[TaskSendParams.id p := task]> (tasks self);
                  task_messages :=
                    <[TaskSendParams.id p := option_list (TaskSendParams.message p)]>
                      (task_messages self) |}, Ok task)
          end.

(** [self.tasks[task_id]], the [KeyError] turned into a [ValueError]. *)
Definition find_task (task_id : string) : M (Manager A) Task.t :=
  λ self, match tasks self !! task_id with
          | Some task => (self, Ok task)
          | None => (self, Raise (ValueError ("Task " ++ task_id ++ " not found")))
          end.

(** A write to the task object stored under [task_id]. *)
Definition store_task (task_id : string) (task : Task.t) : M (Manager A) unit :=
  λ self, ({| agent := agent self;
              tasks := <[task_id := task]> (tasks self);
              task_messages := task_messages self |}, Ok tt).

(** [self.task_messages[task_id].append(msg)] *)
Definition append_message (task_id : string) (msg : Message.t) : M (Manager A) unit :=
  λ self, match task_messages self !! task_id with
          | Some history =>
              ({| agent := agent self;
                  tasks := tasks self;
                  task_messages := <[task_id := (history ++ [msg])%list]> (task_messages self) |},
               Ok tt)
          | None => (self, Raise (KeyError task_id))
          end.

Definition _update_store (task_id : string) (status : TaskStatus.t)
    (artifacts : option (list Artifact.t)) : M (Manager A) Task.t :=
  let! task := find_task task_id in
  let task := {| Task.id := Task.id task; Task.sessionId := Task.sessionId task;
                 Task.status := status; Task.artifacts := Task.artifacts task |} in
  let! _ := store_task task_id task in
  let! _ := match TaskStatus.message status with
            | Some msg => append_message task_id msg
            | None => ret tt
            end in
  match artifacts with
  | Some new =>
      let task := {| Task.id := Task.id task; Task.sessionId := Task.sessionId task;
                     Task.status := Task.status task;
                     Task.artifacts := Some (default [] (Task.artifacts task) ++ new)%list |} in
      let! _ := store_task task_id task in
      ret task
  | None => ret task
  end.

Definition _get_user_query (task_send_params : TaskSendParams.t) : Outcome string :=
  match TaskSendParams.message task_send_params with
  | None => Ok ""
  | Some msg =>
      match Message.parts msg with
      | [] => Ok ""
      | TextPart text :: _ => Ok text
      | OtherPart _ :: _ => Raise (ValueError "Only text parts are supported")
      end
  end.

Definition text_artifact (text : string) : Artifact.t :=
  {| Artifact.parts := [TextPart text] |}.

Definition task_response (request_id : string) (task : Task.t) : SendTaskResponse.t :=
  {| SendTaskResponse.id := request_id;
     SendTaskResponse.result := Some task;
     SendTaskResponse.error := None |}.

Definition _invoke (request : SendTaskRequest.t) : M (Manager A) SendTaskResponse.t :=
  let task_send_params := SendTaskRequest.params request in
  let! query := lift (_get_user_query task_send_params) in
  try_except
    (let! result :=
       on_agent (agent_invoke query (TaskSendParams.sessionId task_send_params)) in
     let! formatted_response := on_agent (agent_get_formatted_response result) in
     let! task :=
       _update_store (TaskSendParams.id task_send_params)
         {| TaskStatus.state := COMPLETED; TaskStatus.message := None |}
         (Some [text_artifact formatted_response]) in
     ret (task_response (SendTaskRequest.id request) task))
    (λ e,
     let error_message := "Error: " ++ str_exc e in
     let! task :=
       _update_store (TaskSendParams.id task_send_params)
         {| TaskStatus.state := FAILED; TaskStatus.message := None |}
         (Some [text_artifact error_message]) in
     ret (task_response (SendTaskRequest.id request) task)).

Definition on_send_task (request : SendTaskRequest.t) : M (Manager A) SendTaskResponse.t :=
  if negb (are_modalities_compatible
             (TaskSendParams.acceptedOutputModes (SendTaskRequest.params request))
             TutorAgent.SUPPORTED_CONTENT_TYPES)
  then ret (new_incompatible_types_error (SendTaskRequest.id request))
  else
    let! _ := upsert_task (SendTaskRequest.params request) in
    _invoke request.

Definition on_send_task_subscribe (request : SendTaskRequest.t)
    : M (Manager A) SendTaskResponse.t :=
  match _validate_request request with
  | Some error => ret error
  | None =>
      let! _ := upsert_task (SendTaskRequest.params request) in
      raise (NotImplementedError "Streaming is not supported by TutorAgent")
  end.

End TaskManager.

(** The manager built in [__main__]: [TutorTaskManager(agent=TutorAgent())],
    with an empty store. *)
Definition new_manager : Manager TutorAgent.Agent :=
  {| agent := TutorAgent.init; tasks := ∅; task_messages := ∅ |}.

(** [on_send_task] of a manager that holds a [TutorAgent]. *)
Definition tutor_on_send_task (w : TutorAgent.World) (request : SendTaskRequest.t)
    : M (Manager TutorAgent.Agent) SendTaskResponse.t :=
  on_send_task (TutorAgent.invoke w)
               (λ result, ret (TutorAgent.get_formatted_response result))
               request.

(** ** Notions used in the statements *)

Module Query.
Import Py TutorAgent.

(** The lines that [parse_student_info] walks through. *)
Definition lines_of (query : string) : list string := split newline (strip query).

(** [key in line.lower()] *)
Definition names (key line : string) : bool := contains key (lower line).

(** The text after the first colon of a line, stripped; empty when the line
    has no colon. *)
Definition text_after_colon (line : string) : string :=
  match split1 colon line with
  | _ :: v :: _ => strip v
  | _ => ""
  end.

(** The branch of the [if]/[elif] chain that a line takes. *)
Definition is_topic (line : string) : bool := names "topic:" line.

Definition is_background (line : string) : bool :=
  negb (names "topic:" line) && names "background:" line.

Definition is_goals (line : string) : bool :=
  negb (names "topic:" line) && negb (names "background:" line) && names "goals:" line.

(** The last line that takes a branch. *)
Definition last_line (branch : string → bool) (lines : list string) : option string :=
  last (filter (λ l, branch l = true) lines).

(** The value given by the last line that takes a branch, [d] when no line
    takes it. *)
Definition last_value_or (d : string) (branch : string → bool) (lines : list string)
    : string :=
  match last_line branch lines with
  | Some line => text_after_colon line
  | None => d
  end.

Definition last_value : (string → bool) → list string → string := last_value_or "".

(** The student information that the query carries, read last line first. *)
Definition info_of (query : string) : StudentInfo :=
  {| topic := last_value is_topic (lines_of query);
     student_background := last_value is_background (lines_of query);
     student_goals := last_value is_goals (lines_of query) |}.

(** Some line names a topic and gives it a non-empty text. *)
Definition some_line_has_topic (query : string) : Prop :=
  ∃ line, line ∈ lines_of query ∧ is_topic line = true ∧ text_after_colon line ≠ "".

Definition soft_error : Result := ErrorResult "Please specify a topic of interest.".

(** The handler of the outer [try] of [invoke]. *)
Definition failed (e : Exception) : M Agent Result :=
  ret (ErrorResult ("Failed to generate learning plan: " ++ str_exc e)).

End Query.

(** The artifacts that a task of the store holds, none for an unknown id or
    an absent list. *)
Definition artifacts_of {A : Type} (m : Manager A) (task_id : string) : list Artifact.t :=
  match tasks m !! task_id with
  | Some task => default [] (Task.artifacts task)
  | None => []
  end.

(** [TaskStatus(state=TaskState.COMPLETED)] and
    [TaskStatus(state=TaskState.FAILED)]: no message. *)
Definition completed_status : TaskStatus.t :=
  {| TaskStatus.state := COMPLETED; TaskStatus.message := None |}.

Definition failed_status : TaskStatus.t :=
  {| TaskStatus.state := FAILED; TaskStatus.message := None |}.

(** Every task of the store has a message history. *)
Definition store_wf {A : Type} (m : Manager A) : Prop :=
  ∀ task_id, is_Some (tasks m !! task_id) → is_Some (task_messages m !! task_id).

(** ** Examples used as concrete inputs *)

Module Sample.
Import Py TutorAgent.

Definition world : World :=
  {| format_beyond := λ _ _, Raise (OtherException "TypeError" "unsupported format string");
     uuid_gap1 := "0123456789abcdef0123456789abcdef";
     uuid_gap2 := "fedcba9876543210fedcba9876543210";
     uuid_plan := "00112233445566778899aabbccddeeff";
     kickoff := Raise (OtherException "RuntimeError" "model not reachable") |}.

Definition ml_query : string :=
  "Topic: Machine Learning" ++ nl ++ "Background: Basic Python" ++ nl
  ++ "Goals: Build ML models".

Definition request (task_id : string) (parts : list Part) (modes : list string)
    : SendTaskRequest.t :=
  {| SendTaskRequest.id := "rpc-1";
     SendTaskRequest.params :=
       {| TaskSendParams.id := task_id;
          TaskSendParams.sessionId := "session-1";
          TaskSendParams.message :=
            Some {| Message.role := "user"; Message.parts := parts |};
          TaskSendParams.acceptedOutputModes := modes |} |}.

(** The document expected for [ml_query]. *)
Definition ml_document : string :=
  "# Personalized Learning Plan" ++ nl ++ nl
  ++ "## Student Assessment" ++ nl
  ++ "Current knowledge level: intermediate" ++ nl ++ nl
  ++ "## Identified Learning Gaps" ++ nl
  ++ "- Fundamentals of Machine Learning: Gaps in basic understanding of Machine Learning fundamentals (Severity: 3/5)" ++ nl
  ++ "- Advanced Machine Learning concepts: Limited knowledge of advanced Machine Learning principles (Severity: 4/5)" ++ nl
  ++ nl ++ "## Recommended Learning Resources" ++ nl
  ++ "- [Understanding Fundamentals of Machine Learning](https://example.com/learn/fundamentals-of-machine-learning) - Article, intermediate level" ++ nl
  ++ "- [Interactive Fundamentals of Machine Learning Exercises](https://example.com/practice/fundamentals-of-machine-learning) - Practice, intermediate level" ++ nl
  ++ "- [Understanding Advanced Machine Learning concepts](https://example.com/learn/advanced-machine-learning-concepts) - Article, intermediate level" ++ nl
  ++ "- [Interactive Advanced Machine Learning concepts Exercises](https://example.com/practice/advanced-machine-learning-concepts) - Practice, intermediate level" ++ nl
  ++ nl ++ "## Learning Milestones" ++ nl
  ++ "1. Master the basics of Fundamentals of Machine Learning" ++ nl
  ++ "2. Master the basics of Advanced Machine Learning concepts" ++ nl
  ++ nl ++ "## Estimated Time to Complete: 20 hours" ++ nl.

(** The text of the [KeyError] on the key ['id'], in double quotes. *)
Definition key_error_text : string :=
  String dquote ("'id'" ++ String dquote "").

(** The descriptions of the two tasks after one call of [invoke] on
    [ml_query] in [world]. *)
Definition assessment_after : string :=
  "Analyze the student's information: topic of interest 'Machine Learning', "
  ++ "background 'Basic Python', and goals 'Build ML models'. "
  ++ "Use the AssessStudentTool to conduct a thorough assessment and identify learning gaps.".

Definition materials_after : string :=
  "Based on the assessment results, create personalized learning materials for the student. "
  ++ "Topic: 'Machine Learning', Identified gaps: "
  ++ "[{'id': '0123456789abcdef0123456789abcdef', 'topic': 'Fundamentals of Machine Learning', "
  ++ "'description': 'Gaps in basic understanding of Machine Learning fundamentals', "
  ++ "'severity': 3, 'recommended_materials': ['Basic tutorials', 'Introductory courses']}, "
  ++ "{'id': 'fedcba9876543210fedcba9876543210', 'topic': 'Advanced Machine Learning concepts', "
  ++ "'description': 'Limited knowledge of advanced Machine Learning principles', "
  ++ "'severity': 4, 'recommended_materials': ['Advanced courses', 'Technical documentation']}]"
  ++ ", Student level: intermediate, "
  ++ "Student goals: 'Build ML models'. Use the CreateLearningMaterialsTool to generate "
  ++ "a customized learning plan with appropriate resources and milestones.".


Definition submitted_task : Task.t :=
  {| Task.id := "task-1";
     Task.sessionId := "session-1";
     Task.status := {| TaskStatus.state := SUBMITTED; TaskStatus.message := None |};
     Task.artifacts := None |}.

(** A store that holds one submitted task and its empty history. *)
Definition one_task_store : Manager Agent :=
  {| agent := init;
     tasks := {[ "task-1" := submitted_task ]};
     task_messages := {[ "task-1" := [] ]} |}.

End Sample.

(** ** The two tools of [tutor_agent.py] *)

Module Tools.
Import Py TutorAgent.




End Tools.

(** ** The environment dump of [debug_server.py] *)

Module DebugServer.
Import Py.

(** The names whose values are hidden. *)
Definition is_sensitive (k : string) : bool :=
  contains "API_KEY" k || contains "SECRET" k || contains "TOKEN" k.

(** The dict comprehension over [os.environ.items()] that is logged. *)
Definition env_vars (environ : gmap string string) : gmap string string :=
  map_imap (λ k v, Some (if is_sensitive k then "***" else v)) environ.

End DebugServer.

(** ** Further notions used in the statements *)




(** Two managers hold the same task and the same message history under
    every id but [task_id]. *)
Definition same_elsewhere {A : Type} (task_id : string) (m m' : Manager A) : Prop :=
  ∀ other, other ≠ task_id →
    tasks m' !! other = tasks m !! other
    ∧ task_messages m' !! other = task_messages m !! other.

(** Two managers hold the same store. *)
Definition same_store {A : Type} (m m' : Manager A) : Prop :=
  tasks m' = tasks m ∧ task_messages m' = task_messages m.

(** A computation that moves the state along a relation, whether it
    returns or raises. *)
Definition keeps {S T : Type} (rel : S → S → Prop) (c : M S T) : Prop :=
  ∀ s, rel s (fst (c s)).

Module Sample2.
Import Py TutorAgent.


Definition completed_task : Task.t :=
  {| Task.id := "task-1";
     Task.sessionId := "session-1";
     Task.status := completed_status;
     Task.artifacts := Some [text_artifact "done"] |}.

(** A store that holds one completed task, with one message in its
    history. *)
Definition completed_store : Manager Agent :=
  {| agent := init;
     tasks := {[ "task-1" := completed_task ]};
     task_messages := {[ "task-1" := [ {| Message.role := "user"; Message.parts := [] |} ] ]} |}.

Definition working_message : Message.t :=
  {| Message.role := "agent"; Message.parts := [TextPart "working"] |}.

End Sample2.

(** * Theorems *)

(** ** Strings *)

Section StringFacts.
Import Py.

Lemma prefix_has_char c k s :
  String.prefix k s = true → has_char c k = true → has_char c s = true.
Proof.
  revert s. induction k as [|a k IH]; intros s Hp Hc; [discriminate|].
  destruct s as [|b s]; [discriminate|]. simpl in *.
  destruct (ascii_dec a b) as [->|Hne]; [|discriminate].
  apply orb_true_iff in Hc as [Hc|Hc]; apply orb_true_iff; eauto.
Qed.

Lemma contains_has_char c k s :
  contains k s = true → has_char c k = true → has_char c s = true.
Proof.
  induction s as [|b s IH]; simpl; intros H Hc.
  - rewrite orb_false_r in H. eapply (prefix_has_char c k ""); eauto.
  - apply orb_true_iff in H as [H|H].
    + eapply (prefix_has_char c k (String b s)); eauto.
    + rewrite (IH H Hc). apply orb_true_r.
Qed.

Lemma lower_char_colon c : lower_char c = colon → c = colon.
Proof.
  destruct c as [[] [] [] [] [] [] [] []]; vm_compute; congruence.
Qed.

Lemma lower_has_colon s : has_char colon (lower s) = true → has_char colon s = true.
Proof.
  induction s as [|c s IH]; simpl; [done|]. intros H.
  apply orb_true_iff in H as [H|H]; apply orb_true_iff.
  - left. apply Ascii.eqb_eq in H. apply lower_char_colon in H. subst. apply Ascii.eqb_refl.
  - right. auto.
Qed.

Lemma split1_has_colon s :
  has_char colon s = true → ∃ a b, split1 colon s = [a; b].
Proof.
  induction s as [|c s IH]; simpl; [done|]. intros H.
  destruct (Ascii.eqb c colon) eqn:E; [eauto|].
  simpl in H. destruct (IH H) as (a & b & ->). eauto.
Qed.

Lemma names_split1 key line :
  has_char colon key = true → Query.names key line = true →
  ∃ a b, split1 colon line = [a; b].
Proof.
  intros Hk Hn. apply split1_has_colon, lower_has_colon.
  eapply contains_has_char; eauto.
Qed.

Lemma split_nonempty sep s : split sep s ≠ [].
Proof.
  destruct s as [|c s]; simpl; [done|].
  destruct (Ascii.eqb c sep); [done|]. destruct (split sep s); done.
Qed.

End StringFacts.

(** ** The parser of the agent *)

Section ParserFacts.
Import Py TutorAgent Query.

Lemma field_value_names key line :
  has_char colon key = true → names key line = true →
  field_value line = Ok (text_after_colon line).
Proof.
  intros Hk Hn. destruct (names_split1 key line Hk Hn) as (a & b & E).
  unfold field_value, text_after_colon. rewrite E. reflexivity.
Qed.

Lemma parse_line_spec info line :
  parse_line info line =
  Ok {| topic := if is_topic line then text_after_colon line else topic info;
        student_background :=
          if is_background line then text_after_colon line else student_background info;
        student_goals :=
          if is_goals line then text_after_colon line else student_goals info |}.
Proof.
  unfold parse_line, is_topic, is_background, is_goals.
  fold (names "topic:" line) (names "background:" line) (names "goals:" line).
  destruct (names "topic:" line) eqn:Ht; simpl.
  { rewrite (field_value_names "topic:" line eq_refl Ht). reflexivity. }
  destruct (names "background:" line) eqn:Hb; simpl.
  { rewrite (field_value_names "background:" line eq_refl Hb). reflexivity. }
  destruct (names "goals:" line) eqn:Hg; simpl.
  { rewrite (field_value_names "goals:" line eq_refl Hg). reflexivity. }
  destruct info; reflexivity.
Qed.

Lemma last_value_or_cons d branch line rest :
  last_value_or d branch (line :: rest) =
  last_value_or (if branch line then text_after_colon line else d) branch rest.
Proof.
  unfold last_value_or, last_line. rewrite filter_cons.
  destruct (decide (branch line = true)) as [E|E].
  - rewrite E, last_cons. destruct (last _); reflexivity.
  - destruct (branch line); [done|reflexivity].
Qed.

(** The loop keeps, for each field, the value of the last line that takes
    its branch. *)
Lemma parse_lines_spec lines : ∀ info,
  parse_lines info lines =
  Ok {| topic := last_value_or (topic info) is_topic lines;
        student_background := last_value_or (student_background info) is_background lines;
        student_goals := last_value_or (student_goals info) is_goals lines |}.
Proof.
  induction lines as [|line rest IH]; intros info.
  - destruct info; reflexivity.
  - simpl. rewrite parse_line_spec. simpl. rewrite IH. simpl.
    rewrite !last_value_or_cons. reflexivity.
Qed.

(** [parse_student_info] never raises. *)
Lemma parse_student_info_spec query :
  parse_student_info query = Ok (info_of query).
Proof. unfold parse_student_info. rewrite parse_lines_spec. reflexivity. Qed.

Lemma failed_not_soft e :
  ErrorResult ("Failed to generate learning plan: " ++ str_exc e) ≠ soft_error.
Proof. unfold soft_error. intros H. inversion H. Qed.

(** The outer [try] of [invoke] always returns a dict, and never the one
    of the missing topic. *)
Lemma generate_caught w info a :
  ∃ a' r, try_except (generate w info) failed a = (a', Ok r) ∧ r ≠ soft_error.
Proof.
  unfold try_except, generate, bind, get, put, lift, ret, failed. simpl.
  destruct (PyFormat.format _ _ _) as [d1|e1]; simpl.
  2: { eexists _, _. split; [reflexivity|]. apply failed_not_soft. }
  destruct (PyFormat.format _ _ _) as [d2|e2]; simpl.
  2: { eexists _, _. split; [reflexivity|]. apply failed_not_soft. }
  destruct (kickoff w); simpl; eexists _, _; (split; [reflexivity|]);
    unfold soft_error; congruence.
Qed.

Lemma invoke_unfold w query session_id a :
  invoke w query session_id a =
  if String.eqb (topic (info_of query)) "" then (a, Ok soft_error)
  else try_except (generate w (with_defaults (info_of query))) failed a.
Proof.
  unfold invoke, bind, lift. rewrite parse_student_info_spec.
  destruct (String.eqb _ _); reflexivity.
Qed.

Lemma invoke_no_topic w query session_id a :
  topic (info_of query) = "" → invoke w query session_id a = (a, Ok soft_error).
Proof. intros E. rewrite invoke_unfold, E. reflexivity. Qed.


(** No line with a topic text leaves the topic empty. *)
Lemma no_topic_line_empty query :
  ¬ some_line_has_topic query → topic (info_of query) = "".
Proof.
  intros Hno. simpl. unfold last_value, last_value_or, last_line.
  destruct (last _) as [line|] eqn:E; [|reflexivity].
  destruct (decide (text_after_colon line = "")) as [|Hne]; [done|].
  exfalso. apply Hno. exists line.
  apply last_Some_elem_of in E. apply list_elem_of_filter in E as [Ht Hin]. done.
Qed.

End ParserFacts.

(** ** The task store *)

Section StoreFacts.
Context {A : Type}.
Implicit Types (m : Manager A) (p : TaskSendParams.t) (st : TaskStatus.t).

Lemma compatible_true accepted supported :
  are_modalities_compatible accepted supported = true ↔
  ∃ x, x ∈ accepted ∧ x ∈ supported.
Proof.
  unfold are_modalities_compatible. rewrite existsb_exists. split.
  - intros (x & Hx & Hs). apply existsb_exists in Hs as (y & Hy & E).
    apply String.eqb_eq in E. subst y. exists x. by rewrite !list_elem_of_In.
  - intros (x & Hx & Hs). exists x. rewrite <- list_elem_of_In. split; [done|].
    apply existsb_exists. exists x. rewrite <- list_elem_of_In, String.eqb_eq. done.
Qed.

Lemma compatible_false accepted supported :
  (∀ x, x ∈ accepted → x ∉ supported) →
  are_modalities_compatible accepted supported = false.
Proof.
  intros H. apply not_true_is_false. rewrite compatible_true.
  intros (x & Hx & Hs). by apply (H x).
Qed.

(** What [upsert_task] leaves behind. *)
Lemma upsert_task_spec p m :
  ∃ m' task,
    upsert_task p m = (m', Ok task)
    ∧ agent m' = agent m
    ∧ tasks m' !! TaskSendParams.id p = Some task
    ∧ default [] (Task.artifacts task) = artifacts_of m (TaskSendParams.id p)
    ∧ (∀ task_id old, tasks m !! task_id = Some old → tasks m' !! task_id = Some old)
    ∧ (tasks m !! TaskSendParams.id p = None →
       TaskStatus.state (Task.status task) = SUBMITTED ∧ Task.artifacts task = None)
    ∧ (∀ task_id, task_id ≠ TaskSendParams.id p → tasks m' !! task_id = tasks m !! task_id)
    ∧ (store_wf m → store_wf m').
Proof.
  unfold upsert_task, artifacts_of.
  destruct (tasks m !! TaskSendParams.id p) as [old|] eqn:E.
  - exists m, old. rewrite E. repeat split; auto; done.
  - eexists _, _. split; [reflexivity|]. simpl.
    rewrite lookup_insert_eq. repeat split; auto.
    + intros task_id old Hold. rewrite lookup_insert_ne; [done|]. congruence.
    + intros task_id Hne. by rewrite lookup_insert_ne.
    + intros Hwf task_id. simpl.
      destruct (decide (TaskSendParams.id p = task_id)) as [->|Hne].
      * rewrite !lookup_insert_eq. eauto.
      * rewrite !lookup_insert_ne by done. apply Hwf.
Qed.

(** An update of a stored task whose status carries no message. *)
Lemma update_store_found m task_id task st new :
  tasks m !! task_id = Some task → TaskStatus.message st = None →
  ∃ m' task',
    _update_store task_id st (Some new) m = (m', Ok task')
    ∧ agent m' = agent m
    ∧ tasks m' !! task_id = Some task'
    ∧ Task.status task' = st
    ∧ Task.artifacts task' = Some (default [] (Task.artifacts task) ++ new)%list
    ∧ (∀ other, other ≠ task_id → tasks m' !! other = tasks m !! other).
Proof.
  intros Hfound Hmsg.
  unfold _update_store, bind, find_task, store_task, ret. rewrite Hfound, Hmsg. simpl.
  eexists _, _. split; [reflexivity|]. simpl. rewrite lookup_insert_eq.
  repeat split; auto. intros other Hne. by rewrite !lookup_insert_ne.
Qed.

(** An update of a stored task succeeds when its status carries no message
    or the task has a message history; the history, if any, stays. *)
Lemma update_store_history m task_id task st new :
  tasks m !! task_id = Some task →
  (is_Some (TaskStatus.message st) → is_Some (task_messages m !! task_id)) →
  ∃ m' task',
    _update_store task_id st (Some new) m = (m', Ok task')
    ∧ tasks m' !! task_id = Some task'
    ∧ Task.artifacts task' = Some (default [] (Task.artifacts task) ++ new)%list
    ∧ (is_Some (task_messages m !! task_id) → is_Some (task_messages m' !! task_id)).
Proof.
  intros Hfound Hhist.
  unfold _update_store, bind, find_task, store_task, append_message, ret.
  rewrite Hfound. simpl.
  destruct (TaskStatus.message st) as [msg|]; simpl.
  - destruct Hhist as [history Hh]; [by eexists|].
    rewrite Hh. simpl. eexists _, _. split; [reflexivity|]. simpl.
    rewrite !lookup_insert_eq. eauto.
  - eexists _, _. split; [reflexivity|]. simpl.
    rewrite !lookup_insert_eq. eauto.
Qed.

(** Without a message history, a status that carries a message makes the
    update stop at [self.task_messages[task_id]]: the new status is already
    written, the artifacts are not. *)
Lemma update_store_missing_history m task_id task st msg artifacts :
  tasks m !! task_id = Some task →
  TaskStatus.message st = Some msg →
  task_messages m !! task_id = None →
  _update_store task_id st artifacts m
  = ({| agent := agent m;
        tasks := <[task_id := {| Task.id := Task.id task;
                                 Task.sessionId := Task.sessionId task;
                                 Task.status := st;
                                 Task.artifacts := Task.artifacts task |}]> (tasks m);
        task_messages := task_messages m |},
     Raise (KeyError task_id)).
Proof.
  intros Hfound Hmsg Hnone.
  unfold _update_store, bind, find_task, store_task, append_message, ret.
  rewrite Hfound, Hmsg. simpl. rewrite Hnone. reflexivity.
Qed.

Lemma new_manager_wf : store_wf new_manager.
Proof. intros task_id [t Ht]. simpl in Ht. by rewrite lookup_empty in Ht. Qed.

End StoreFacts.

(** C7. [_update_store] on a task id that the store does not hold raises
    the not-found error, [ValueError] with the text [Task <id> not found],
    and returns the manager as it was: no task is created under that id and
    no other task, no message history and no field of the agent changes. *)
Theorem C7_update_unknown_task {A : Type} (m : Manager A) (task_id : string)
    (status : TaskStatus.t) (artifacts : option (list Artifact.t)) :
  tasks m !! task_id = None →
  _update_store task_id status artifacts m
  = (m, Raise (ValueError ("Task " ++ task_id ++ " not found"))).
Proof.
  intros Hnone. unfold _update_store, bind, find_task. rewrite Hnone. reflexivity.
Qed.

Lemma C7_witness :
  tasks new_manager !! "task-9" = None
  ∧ _update_store "task-9"
      {| TaskStatus.state := COMPLETED; TaskStatus.message := None |}
      (Some [ {| Artifact.parts := [TextPart "done"] |} ]) new_manager
    = (new_manager, Raise (ValueError "Task task-9 not found")).
Proof.
  split; [reflexivity|]. apply (C7_update_unknown_task new_manager "task-9"). reflexivity.
Defined.

(** C6. Two updates in a row of a stored task, each with a list of
    artifacts, both succeed and leave the task with the artifacts it had
    (none when the list was absent) followed by the first list and then the
    second: nothing is removed or reordered, the length grows by the sum of
    the two additions, and for a task without earlier artifacts the list is
    the first list followed by the second.  A status that carries a message
    is appended to the message history of the task, which must then exist. *)
Theorem C6_updates_append {A : Type} (m : Manager A) (task_id : string) (task : Task.t)
    (st1 st2 : TaskStatus.t) (l1 l2 : list Artifact.t) :
  tasks m !! task_id = Some task →
  (is_Some (TaskStatus.message st1) ∨ is_Some (TaskStatus.message st2) →
   is_Some (task_messages m !! task_id)) →
  ∃ m1 t1 m2 t2,
    _update_store task_id st1 (Some l1) m = (m1, Ok t1)
    ∧ _update_store task_id st2 (Some l2) m1 = (m2, Ok t2)
    ∧ tasks m2 !! task_id = Some t2
    ∧ Task.artifacts t2 = Some (default [] (Task.artifacts task) ++ l1 ++ l2)%list
    ∧ length (default [] (Task.artifacts t2))
      = (length (default [] (Task.artifacts task)) + (length l1 + length l2))%nat
    ∧ (default [] (Task.artifacts task) = [] →
       Task.artifacts t2 = Some (l1 ++ l2)%list
       ∧ length (default [] (Task.artifacts t2)) = (length l1 + length l2)%nat).
Proof.
  intros Hfound Hhist.
  destruct (update_store_history m task_id task st1 l1 Hfound)
    as (m1 & t1 & E1 & Ht1 & Ha1 & Hh1); [by auto|].
  destruct (update_store_history m1 task_id t1 st2 l2 Ht1)
    as (m2 & t2 & E2 & Ht2 & Ha2 & _); [by auto|].
  exists m1, t1, m2, t2. rewrite Ha1 in Ha2. simpl in Ha2. rewrite <- app_assoc in Ha2.
  split; [exact E1|]. split; [exact E2|]. split; [exact Ht2|]. split; [exact Ha2|].
  rewrite Ha2. simpl. split.
  - by rewrite !length_app.
  - intros Hempty. rewrite Hempty. simpl. by rewrite length_app.
Qed.

(** ** The request handlers *)

Section HandlerFacts.
Context {A R : Type}.
Variable agent_invoke : string → string → M A R.
Variable agent_get_formatted_response : R → M A string.
Implicit Types (m : Manager A) (request : SendTaskRequest.t).

(** With compatible modes the handler upserts the task and goes on to
    [_invoke]. *)
Lemma on_send_task_compatible request m :
  are_modalities_compatible
    (TaskSendParams.acceptedOutputModes (SendTaskRequest.params request))
    TutorAgent.SUPPORTED_CONTENT_TYPES = true →
  on_send_task agent_invoke agent_get_formatted_response request m
  = _invoke agent_invoke agent_get_formatted_response request
      (fst (upsert_task (SendTaskRequest.params request) m)).
Proof.
  intros Hc. unfold on_send_task. rewrite Hc. simpl. unfold bind.
  destruct (upsert_task_spec (SendTaskRequest.params request) m) as (m' & t & -> & _).
  reflexivity.
Qed.

(** The normal end of [_invoke]: the agent returns, the text is attached
    and the task is [COMPLETED]. *)
Lemma invoke_completes request m query task a1 result a2 text :
  _get_user_query (SendTaskRequest.params request) = Ok query →
  tasks m !! TaskSendParams.id (SendTaskRequest.params request) = Some task →
  agent_invoke query (TaskSendParams.sessionId (SendTaskRequest.params request)) (agent m)
  = (a1, Ok result) →
  agent_get_formatted_response result a1 = (a2, Ok text) →
  ∃ m' task',
    _invoke agent_invoke agent_get_formatted_response request m
    = (m', Ok (task_response (SendTaskRequest.id request) task'))
    ∧ agent m' = a2
    ∧ tasks m' !! TaskSendParams.id (SendTaskRequest.params request) = Some task'
    ∧ Task.status task' = completed_status
    ∧ Task.artifacts task'
      = Some (default [] (Task.artifacts task) ++ [text_artifact text])%list
    ∧ (∀ other, other ≠ TaskSendParams.id (SendTaskRequest.params request) →
       tasks m' !! other = tasks m !! other).
Proof.
  intros Hq Ht Hinv Hfmt.
  unfold _invoke, bind at 1, lift. rewrite Hq.
  unfold try_except, bind, on_agent, ret. rewrite Hinv. simpl. rewrite Hfmt.
  set (m2 := {| agent := a2; tasks := tasks m; task_messages := task_messages m |}).
  destruct (update_store_found m2 _ task completed_status [text_artifact text] Ht eq_refl)
    as (m' & task' & E & Ha & Hl & Hs & Hart & Hother).
  fold completed_status. rewrite E. exists m', task'. repeat split; auto.
Qed.

(** The [except] branch of [_invoke], for a fault of the agent. *)
Lemma invoke_fails request m query task a' e :
  _get_user_query (SendTaskRequest.params request) = Ok query →
  tasks m !! TaskSendParams.id (SendTaskRequest.params request) = Some task →
  (agent_invoke query (TaskSendParams.sessionId (SendTaskRequest.params request)) (agent m)
   = (a', Raise e)
   ∨ ∃ a1 result,
       agent_invoke query (TaskSendParams.sessionId (SendTaskRequest.params request))
         (agent m) = (a1, Ok result)
       ∧ agent_get_formatted_response result a1 = (a', Raise e)) →
  ∃ m' task',
    _invoke agent_invoke agent_get_formatted_response request m
    = (m', Ok (task_response (SendTaskRequest.id request) task'))
    ∧ agent m' = a'
    ∧ tasks m' !! TaskSendParams.id (SendTaskRequest.params request) = Some task'
    ∧ Task.status task' = failed_status
    ∧ Task.artifacts task'
      = Some (default [] (Task.artifacts task)
              ++ [text_artifact ("Error: " ++ str_exc e)])%list
    ∧ (∀ other, other ≠ TaskSendParams.id (SendTaskRequest.params request) →
       tasks m' !! other = tasks m !! other).
Proof.
  intros Hq Ht Hraise.
  set (m2 := {| agent := a'; tasks := tasks m; task_messages := task_messages m |}).
  destruct (update_store_found m2 _ task failed_status
              [text_artifact ("Error: " ++ str_exc e)] Ht eq_refl)
    as (m' & task' & E & Ha & Hl & Hs & Hart & Hother).
  exists m', task'.
  unfold _invoke, bind at 1, lift. rewrite Hq.
  unfold try_except, bind, on_agent, ret.
  destruct Hraise as [Hinv|(a1 & result & Hinv & Hfmt)].
  - rewrite Hinv. simpl. fold failed_status m2. rewrite E. repeat split; auto.
  - rewrite Hinv. simpl. rewrite Hfmt. fold failed_status m2. rewrite E.
    repeat split; auto.
Qed.

End HandlerFacts.

(** C3. A request whose accepted output modes share no element with the
    supported content types, ["text"] and ["text/plain"], gets the error
    response for incompatible content types, without a task, and the manager
    is returned as it was: no task is created under the id of the request, no
    stored task or message history changes, and the agent is not called. *)
Theorem C3_incompatible_modes_no_mutation {A R : Type}
    (agent_invoke : string → string → M A R)
    (agent_get_formatted_response : R → M A string)
    (m : Manager A) (request : SendTaskRequest.t) :
  (∀ mode, mode ∈ TaskSendParams.acceptedOutputModes (SendTaskRequest.params request) →
           mode ∉ ["text"; "text/plain"]) →
  on_send_task agent_invoke agent_get_formatted_response request m
  = (m, Ok {| SendTaskResponse.id := SendTaskRequest.id request;
              SendTaskResponse.result := None;
              SendTaskResponse.error := Some IncompatibleContentTypes |}).
Proof.
  intros Hdisjoint. unfold on_send_task.
  rewrite (compatible_false _ TutorAgent.SUPPORTED_CONTENT_TYPES Hdisjoint).
  reflexivity.
Qed.

Lemma C3_witness :
  (∀ mode, mode ∈ ["application/json"] → mode ∉ ["text"; "text/plain"])
  ∧ tutor_on_send_task Sample.world
      (Sample.request "task-1" [TextPart Sample.ml_query] ["application/json"])
      new_manager
    = (new_manager,
       Ok {| SendTaskResponse.id := "rpc-1";
             SendTaskResponse.result := None;
             SendTaskResponse.error := Some IncompatibleContentTypes |}).
Proof.
  assert (H : ∀ mode, mode ∈ ["application/json"] → mode ∉ ["text"; "text/plain"]).
  { intros mode Hin Hsup. apply list_elem_of_singleton in Hin. subst mode.
    apply elem_of_cons in Hsup as [Hsup|Hsup]; [discriminate|].
    apply list_elem_of_singleton in Hsup. discriminate. }
  split; [exact H|].
  exact (C3_incompatible_modes_no_mutation _ _ new_manager
           (Sample.request "task-1" [TextPart Sample.ml_query] ["application/json"]) H).
Defined.

(** C8. A streaming request that passes [_validate_request] has its task
    upserted and is then rejected with [NotImplementedError], whatever its
    payload: the store is the one that the upsert leaves (the task is there,
    a task that was stored before is unchanged, a new one is [SUBMITTED]
    without artifacts), and the agent is neither called nor changed. *)
Theorem C8_streaming_rejected_after_upsert {A : Type}
    (_validate_request : SendTaskRequest.t → option SendTaskResponse.t)
    (m : Manager A) (request : SendTaskRequest.t) :
  _validate_request request = None →
  ∃ m',
    on_send_task_subscribe _validate_request request m
    = (m', Raise (NotImplementedError "Streaming is not supported by TutorAgent"))
    ∧ m' = fst (upsert_task (SendTaskRequest.params request) m)
    ∧ agent m' = agent m
    ∧ is_Some (tasks m' !! TaskSendParams.id (SendTaskRequest.params request))
    ∧ (∀ task_id old, tasks m !! task_id = Some old → tasks m' !! task_id = Some old)
    ∧ (∀ task, tasks m' !! TaskSendParams.id (SendTaskRequest.params request) = Some task →
         tasks m !! TaskSendParams.id (SendTaskRequest.params request) = Some task
         ∨ (TaskStatus.state (Task.status task) = SUBMITTED ∧ Task.artifacts task = None)).
Proof.
  intros Hvalid. unfold on_send_task_subscribe. rewrite Hvalid. unfold bind, raise.
  destruct (upsert_task_spec (SendTaskRequest.params request) m)
    as (m' & task & E & Hagent & Hlookup & _ & Hkeep & Hnew & _ & _).
  rewrite E. exists m'. simpl. split; [reflexivity|]. split; [reflexivity|].
  split; [exact Hagent|]. split; [by eexists|]. split; [exact Hkeep|].
  intros task' Htask'. rewrite Hlookup in Htask'. injection Htask' as <-.
  destruct (tasks m !! TaskSendParams.id (SendTaskRequest.params request)) as [old|] eqn:Hold.
  - left. apply Hkeep in Hold. congruence.
  - right. by apply Hnew.
Qed.

Lemma C8_witness :
  ∃ m',
    on_send_task_subscribe (λ _, None)
      (Sample.request "task-1" [TextPart Sample.ml_query] ["application/json"])
      new_manager
    = (m', Raise (NotImplementedError "Streaming is not supported by TutorAgent"))
    ∧ agent m' = TutorAgent.init
    ∧ is_Some (tasks m' !! "task-1").
Proof.
  destruct (C8_streaming_rejected_after_upsert (λ _, None) new_manager
              (Sample.request "task-1" [TextPart Sample.ml_query] ["application/json"])
              eq_refl) as (m' & E & _ & Hagent & Htask & _).
  exists m'. split; [exact E|]. split; [exact Hagent|exact Htask].
Defined.

(** C4. When the modes are compatible and a query was extracted, a fault
    raised by the agent's [invoke], or by its [get_formatted_response] on the
    result, is caught: the handler returns a response that wraps the task,
    the task is stored in state [FAILED], and exactly one artifact is added,
    whose single text part is ["Error: "] followed by the text of the
    exception.  The artifacts of the task are those it had before the
    request followed by that one, so a task without earlier artifacts has
    exactly that one. *)
Theorem C4_agent_fault_resolves_failed {A R : Type}
    (agent_invoke : string → string → M A R)
    (agent_get_formatted_response : R → M A string)
    (m : Manager A) (request : SendTaskRequest.t) (query : string)
    (a' : A) (e : Exception) :
  let params := SendTaskRequest.params request in
  are_modalities_compatible (TaskSendParams.acceptedOutputModes params)
    ["text"; "text/plain"] = true →
  _get_user_query params = Ok query →
  (agent_invoke query (TaskSendParams.sessionId params) (agent m) = (a', Raise e)
   ∨ ∃ a1 result,
       agent_invoke query (TaskSendParams.sessionId params) (agent m) = (a1, Ok result)
       ∧ agent_get_formatted_response result a1 = (a', Raise e)) →
  ∃ m' task,
    on_send_task agent_invoke agent_get_formatted_response request m
    = (m', Ok {| SendTaskResponse.id := SendTaskRequest.id request;
                 SendTaskResponse.result := Some task;
                 SendTaskResponse.error := None |})
    ∧ tasks m' !! TaskSendParams.id params = Some task
    ∧ Task.status task = {| TaskStatus.state := FAILED; TaskStatus.message := None |}
    ∧ Task.artifacts task
      = Some (artifacts_of m (TaskSendParams.id params)
              ++ [ {| Artifact.parts := [TextPart ("Error: " ++ str_exc e)] |} ])%list
    ∧ (artifacts_of m (TaskSendParams.id params) = [] →
       Task.artifacts task
       = Some [ {| Artifact.parts := [TextPart ("Error: " ++ str_exc e)] |} ]).
Proof.
  intros params Hcompat Hquery Hraise.
  rewrite on_send_task_compatible by exact Hcompat. fold params.
  destruct (upsert_task_spec params m)
    as (m1 & task1 & E & Hagent & Hlookup & Hart & _).
  rewrite E. simpl. rewrite <- Hagent in Hraise.
  destruct (invoke_fails agent_invoke agent_get_formatted_response request m1 query task1
              a' e Hquery Hlookup Hraise)
    as (m' & task & E' & _ & Hl & Hs & Ha & _).
  exists m', task. rewrite Hart in Ha. repeat split; auto.
  intros Hnone. rewrite Ha, Hnone. reflexivity.
Qed.

Lemma C4_witness :
  ∃ m' task,
    on_send_task (A := unit) (R := string)
      (λ _ _, raise (OtherException "RuntimeError" "model not reachable"))
      (λ text, ret text)
      (Sample.request "task-1" [TextPart Sample.ml_query] ["text/plain"])
      {| agent := tt; tasks := ∅; task_messages := ∅ |}
    = (m', Ok {| SendTaskResponse.id := "rpc-1";
                 SendTaskResponse.result := Some task;
                 SendTaskResponse.error := None |})
    ∧ Task.status task = {| TaskStatus.state := FAILED; TaskStatus.message := None |}
    ∧ Task.artifacts task
      = Some [ {| Artifact.parts := [TextPart "Error: model not reachable"] |} ].
Proof.
  destruct (C4_agent_fault_resolves_failed (A := unit) (R := string)
              (λ _ _, raise (OtherException "RuntimeError" "model not reachable"))
              (λ text, ret text)
              {| agent := tt; tasks := ∅; task_messages := ∅ |}
              (Sample.request "task-1" [TextPart Sample.ml_query] ["text/plain"])
              Sample.ml_query tt (OtherException "RuntimeError" "model not reachable")
              eq_refl eq_refl (or_introl eq_refl))
    as (m' & task & E & _ & Hs & _ & Hone).
  exists m', task. split; [exact E|]. split; [exact Hs|]. apply Hone. reflexivity.
Defined.

Lemma C6_witness :
  ∃ m1 t1 m2 t2,
    _update_store "task-1" completed_status
      (Some [text_artifact "one"; text_artifact "two"]) Sample.one_task_store = (m1, Ok t1)
    ∧ _update_store "task-1" failed_status (Some [text_artifact "three"]) m1 = (m2, Ok t2)
    ∧ Task.artifacts t2
      = Some [text_artifact "one"; text_artifact "two"; text_artifact "three"].
Proof.
  destruct (C6_updates_append Sample.one_task_store "task-1" Sample.submitted_task
              completed_status failed_status
              [text_artifact "one"; text_artifact "two"] [text_artifact "three"]
              eq_refl (λ _, mk_is_Some _ _ eq_refl))
    as (m1 & t1 & m2 & t2 & E1 & E2 & _ & Ha & _).
  exists m1, t1, m2, t2. split; [exact E1|]. split; [exact E2|exact Ha].
Defined.

(** ** Requests to a manager that holds the tutor agent *)

(** C1. A request whose accepted output modes include ["text"] or
    ["text/plain"] and whose first message part is a text in which no line
    names a topic with a non-empty text is answered normally: the response
    wraps the task, the task is stored in state [COMPLETED], not [FAILED],
    and exactly one artifact is added, whose single text part is
    ["Error: Please specify a topic of interest."].  The artifacts of the
    task are those it had before the request followed by that one, so a task
    without earlier artifacts has exactly that one.  The agent is left as it
    was. *)
Theorem C1_missing_topic_completes (w : TutorAgent.World)
    (m : Manager TutorAgent.Agent) (request : SendTaskRequest.t)
    (msg : Message.t) (query : string) (rest : list Part) :
  let params := SendTaskRequest.params request in
  ("text" ∈ TaskSendParams.acceptedOutputModes params
   ∨ "text/plain" ∈ TaskSendParams.acceptedOutputModes params) →
  TaskSendParams.message params = Some msg →
  Message.parts msg = TextPart query :: rest →
  ¬ Query.some_line_has_topic query →
  ∃ m' task,
    tutor_on_send_task w request m
    = (m', Ok {| SendTaskResponse.id := SendTaskRequest.id request;
                 SendTaskResponse.result := Some task;
                 SendTaskResponse.error := None |})
    ∧ tasks m' !! TaskSendParams.id params = Some task
    ∧ Task.status task = {| TaskStatus.state := COMPLETED; TaskStatus.message := None |}
    ∧ Task.artifacts task
      = Some (artifacts_of m (TaskSendParams.id params)
              ++ [ {| Artifact.parts :=
                        [TextPart "Error: Please specify a topic of interest."] |} ])%list
    ∧ (artifacts_of m (TaskSendParams.id params) = [] →
       Task.artifacts task
       = Some [ {| Artifact.parts :=
                     [TextPart "Error: Please specify a topic of interest."] |} ])
    ∧ agent m' = agent m.
Proof.
  intros params Hmodes Hmsg Hparts Hno.
  assert (Hcompat : are_modalities_compatible (TaskSendParams.acceptedOutputModes params)
                      TutorAgent.SUPPORTED_CONTENT_TYPES = true).
  { apply compatible_true.
    destruct Hmodes as [H|H]; eexists; (split; [exact H|]);
      unfold TutorAgent.SUPPORTED_CONTENT_TYPES; set_solver. }
  unfold tutor_on_send_task. rewrite on_send_task_compatible by exact Hcompat. fold params.
  destruct (upsert_task_spec params m)
    as (m1 & task1 & E & Hagent & Hlookup & Hart & _).
  rewrite E. simpl.
  assert (Hquery : _get_user_query params = Ok query).
  { unfold _get_user_query. rewrite Hmsg, Hparts. reflexivity. }
  destruct (invoke_completes (TutorAgent.invoke w)
              (λ result, ret (TutorAgent.get_formatted_response result))
              request m1 query task1 (agent m1) Query.soft_error (agent m1)
              "Error: Please specify a topic of interest." Hquery Hlookup)
    as (m' & task & E' & Ha' & Hl & Hs & Ha & _).
  { apply invoke_no_topic. by apply no_topic_line_empty. }
  { reflexivity. }
  exists m', task. rewrite Hart in Ha. rewrite E'. repeat split; auto.
  - intros Hnone. rewrite Ha, Hnone. reflexivity.
  - congruence.
Qed.

Lemma C1_witness :
  ∃ m' task,
    tutor_on_send_task Sample.world
      (Sample.request "task-1" [TextPart "Background: Basic Python"] ["text"]) new_manager
    = (m', Ok {| SendTaskResponse.id := "rpc-1";
                 SendTaskResponse.result := Some task;
                 SendTaskResponse.error := None |})
    ∧ Task.status task = {| TaskStatus.state := COMPLETED; TaskStatus.message := None |}
    ∧ Task.artifacts task
      = Some [ {| Artifact.parts :=
                    [TextPart "Error: Please specify a topic of interest."] |} ].
Proof.
  assert (Hno : ¬ Query.some_line_has_topic "Background: Basic Python").
  { intros (line & Hin & Ht & _).
    change (line ∈ ["Background: Basic Python"]) in Hin.
    apply list_elem_of_singleton in Hin. subst line. vm_compute in Ht. discriminate Ht. }
  destruct (C1_missing_topic_completes Sample.world new_manager
              (Sample.request "task-1" [TextPart "Background: Basic Python"] ["text"])
              {| Message.role := "user";
                 Message.parts := [TextPart "Background: Basic Python"] |}
              "Background: Basic Python" []
              (or_introl (list_elem_of_here _ _)) eq_refl eq_refl Hno)
    as (m' & task & E & _ & Hs & _ & Hone & _).
  exists m', task. split; [exact E|]. split; [exact Hs|]. apply Hone. reflexivity.
Defined.

(** A non-text first part: the fault of [_get_user_query] is raised before
    the [try] of [_invoke] and leaves the handler, after the upsert. *)
Lemma non_text_part_escapes {A R : Type}
    (agent_invoke : string → string → M A R)
    (agent_get_formatted_response : R → M A string)
    (m : Manager A) (request : SendTaskRequest.t)
    (msg : Message.t) (type : string) (rest : list Part) :
  are_modalities_compatible
    (TaskSendParams.acceptedOutputModes (SendTaskRequest.params request))
    TutorAgent.SUPPORTED_CONTENT_TYPES = true →
  TaskSendParams.message (SendTaskRequest.params request) = Some msg →
  Message.parts msg = OtherPart type :: rest →
  on_send_task agent_invoke agent_get_formatted_response request m
  = (fst (upsert_task (SendTaskRequest.params request) m),
     Raise (ValueError "Only text parts are supported")).
Proof.
  intros Hcompat Hmsg Hparts. rewrite on_send_task_compatible by exact Hcompat.
  unfold _invoke, bind, lift, _get_user_query. rewrite Hmsg, Hparts. reflexivity.
Qed.

(** C2 (the code departs from the claim). A request with compatible modes
    whose only message part is not a text part: [on_send_task] raises
    [ValueError "Only text parts are supported"] to its caller instead of
    returning a response, and the task stays in the store as the upsert made
    it, [SUBMITTED] and without any artifact. *)
Theorem C2_non_text_part_fault_escapes :
  ∃ m',
    tutor_on_send_task Sample.world
      (Sample.request "task-1" [OtherPart "file"] ["text"]) new_manager
    = (m', Raise (ValueError "Only text parts are supported"))
    ∧ tasks m' !! "task-1" = Some Sample.submitted_task.
Proof.
  eexists. split.
  - exact (non_text_part_escapes _ _ new_manager
             (Sample.request "task-1" [OtherPart "file"] ["text"])
             {| Message.role := "user"; Message.parts := [OtherPart "file"] |}
             "file" [] eq_refl eq_refl eq_refl).
  - reflexivity.
Qed.

(** The first request to a manager as built at start-up, for any identifiers
    drawn and any outcome of the crew: the task is [COMPLETED] with the one
    artifact that holds the learning plan. *)
Lemma first_request_returns_plan (w : TutorAgent.World) :
  snd (tutor_on_send_task w
         (Sample.request "task-1" [TextPart Sample.ml_query] ["text"]) new_manager)
  = Ok {| SendTaskResponse.id := "rpc-1";
          SendTaskResponse.result :=
            Some {| Task.id := "task-1";
                    Task.sessionId := "session-1";
                    Task.status := completed_status;
                    Task.artifacts := Some [text_artifact Sample.ml_document] |};
          SendTaskResponse.error := None |}.
Proof.
  unfold tutor_on_send_task, on_send_task, _invoke, TutorAgent.invoke, TutorAgent.generate,
    try_except, bind, on_agent, lift, ret, get, put.
  destruct w as [beyond u1 u2 u3 [crew|crew]]; reflexivity.
Qed.

(** C5 (the code departs from the claim). The request with the three-line
    machine-learning query, sent to a manager that has already answered one
    such request: the task is [COMPLETED] with one artifact, but its text is
    the error of a failed [str.format] on the overwritten task description,
    and holds none of the sections of the learning plan. *)
Theorem C5_second_request_returns_error :
  let first := tutor_on_send_task Sample.world
                 (Sample.request "task-1" [TextPart Sample.ml_query] ["text"])
                 new_manager in
  let second := tutor_on_send_task Sample.world
                  (Sample.request "task-2" [TextPart Sample.ml_query] ["text"])
                  (fst first) in
  let text := "Error: Failed to generate learning plan: " ++ Sample.key_error_text in
  snd first
  = Ok {| SendTaskResponse.id := "rpc-1";
          SendTaskResponse.result :=
            Some {| Task.id := "task-1";
                    Task.sessionId := "session-1";
                    Task.status := completed_status;
                    Task.artifacts := Some [text_artifact Sample.ml_document] |};
          SendTaskResponse.error := None |}
  ∧ snd second
    = Ok {| SendTaskResponse.id := "rpc-1";
            SendTaskResponse.result :=
              Some {| Task.id := "task-2";
                      Task.sessionId := "session-1";
                      Task.status := completed_status;
                      Task.artifacts := Some [text_artifact text] |};
            SendTaskResponse.error := None |}
  ∧ Py.contains "Student Assessment" text = false
  ∧ Py.contains "Identified Learning Gaps" text = false
  ∧ Py.contains "Estimated Time to Complete: 20 hours" text = false
  ∧ Py.contains "Student Assessment" Sample.ml_document = true
  ∧ Py.contains "Estimated Time to Complete: 20 hours" Sample.ml_document = true.
Proof. vm_compute. repeat split. Qed.

(** C9 (the code departs from the claim). [invoke] on the three-line
    machine-learning query writes the formatted texts back into the two task
    descriptions of the agent, so the agent is not the same after the call;
    the first call returns a plan, and a second call with the same input on
    the same agent returns the error of a failed [str.format] instead. *)
Theorem C9_invoke_overwrites_task_descriptions :
  let first := TutorAgent.invoke Sample.world Sample.ml_query "session-1"
                 TutorAgent.init in
  let second := TutorAgent.invoke Sample.world Sample.ml_query "session-1"
                  (fst first) in
  TutorAgent.assessment_task_description (fst first) = Sample.assessment_after
  ∧ TutorAgent.materials_task_description (fst first) = Sample.materials_after
  ∧ TutorAgent.assessment_task_description (fst first)
    ≠ TutorAgent.assessment_task_description TutorAgent.init
  ∧ TutorAgent.materials_task_description (fst first)
    ≠ TutorAgent.materials_task_description TutorAgent.init
  ∧ (∃ assessment plan, snd first = Ok (TutorAgent.PlanResult assessment plan))
  ∧ snd second
    = Ok (TutorAgent.ErrorResult
            ("Failed to generate learning plan: " ++ Sample.key_error_text))
  ∧ snd second ≠ snd first.
Proof.
  vm_compute. repeat split; try discriminate.
  eexists _, _. reflexivity.
Qed.

(** ** The missing-topic error of the agent *)



(** ** Further facts *)

(** Every stored task has a message history: this holds at start-up, is
    kept by an upsert, and is kept by an update. *)
Lemma update_store_wf {A : Type} (m : Manager A) (task_id : string)
    (status : TaskStatus.t) (artifacts : option (list Artifact.t)) :
  store_wf m → store_wf (fst (_update_store task_id status artifacts m)).
Proof.
  intros Hwf.
  unfold _update_store, bind, find_task, store_task, append_message, ret.
  destruct (tasks m !! task_id) as [task|] eqn:Hfound; simpl; [|exact Hwf].
  assert (Hid : is_Some (task_messages m !! task_id)) by (apply Hwf; eauto).
  destruct Hid as [history Hh].
  assert (Hold : ∀ k, k ≠ task_id → is_Some (tasks m !! k) →
                      is_Some (task_messages m !! k)) by (intros; by apply Hwf).
  destruct (TaskStatus.message status) as [msg|]; simpl.
  - rewrite Hh. simpl.
    destruct artifacts as [new|]; simpl; intros k Hk; simpl in *;
      destruct (decide (k = task_id)) as [->|Hne].
    + rewrite lookup_insert_eq. eauto.
    + rewrite !lookup_insert_ne in Hk by done. rewrite lookup_insert_ne by done. auto.
    + rewrite lookup_insert_eq. eauto.
    + rewrite !lookup_insert_ne in Hk by done. rewrite lookup_insert_ne by done. auto.
  - destruct artifacts as [new|]; simpl; intros k Hk; simpl in *;
      destruct (decide (k = task_id)) as [->|Hne].
    + rewrite Hh. eauto.
    + rewrite !lookup_insert_ne in Hk by done. auto.
    + rewrite Hh. eauto.
    + rewrite !lookup_insert_ne in Hk by done. auto.
Qed.

(** The request of the well-formed scenario is parsed into its three
    fields. *)
Example parse_ml_query :
  TutorAgent.parse_student_info Sample.ml_query
  = Ok {| TutorAgent.topic := "Machine Learning";
          TutorAgent.student_background := "Basic Python";
          TutorAgent.student_goals := "Build ML models" |}.
Proof. reflexivity. Qed.

Example lower_ex : Py.lower "Topic: ML" = "topic: ml".
Proof. reflexivity. Qed.

Example strip_ex : Py.strip "  a b  " = "a b".
Proof. reflexivity. Qed.

Example split_empty_ex : Py.split Py.newline "" = [""].
Proof. reflexivity. Qed.

Example split1_ex : Py.split1 Py.colon "a:b:c" = ["a"; "b:c"].
Proof. reflexivity. Qed.

Example str_int_ex : Py.str_int 20 = "20".
Proof. reflexivity. Qed.

Example repr_ex : Py.repr "id" = String Py.squote ("id" ++ String Py.squote "").
Proof. reflexivity. Qed.

(** A template that names an unknown field raises [KeyError] on it. *)
Example format_unknown_field :
  PyFormat.format_scan PyFormat.InText "gaps: [{'id': 'ab'}]" [("topic", "ML")]
  = Some (Raise (KeyError "'id'")).
Proof. reflexivity. Qed.

Example format_known_field :
  PyFormat.format_scan PyFormat.InText "topic '{topic}'" [("topic", "ML")]
  = Some (Ok "topic 'ML'").
Proof. reflexivity. Qed.

(** * Further properties of the code *)

(** ** The parser *)

Section ParserMore.
Import Py TutorAgent Query.


Lemma rstrip_cons_keep c r :
  is_space c = false → rstrip (String c r) = String c (rstrip r).
Proof. intros Hc. simpl. destruct (rstrip r); [by rewrite Hc|reflexivity]. Qed.

Lemma rstrip_idem s : rstrip (rstrip s) = rstrip s.
Proof.
  induction s as [|c s IH]; simpl; [done|].
  destruct (rstrip s) as [|c' r'] eqn:E.
  - destruct (is_space c) eqn:Hc; simpl; [done|by rewrite Hc].
  - simpl. simpl in IH. destruct (rstrip r') eqn:E'.
    + destruct (is_space c'); [discriminate|]. injection IH as <-. reflexivity.
    + rewrite IH. reflexivity.
Qed.

Lemma lstrip_head s :
  match lstrip s with
  | EmptyString => True
  | String c _ => is_space c = false
  end.
Proof.
  induction s as [|c s IH]; simpl; [done|].
  destruct (is_space c) eqn:Hc; [exact IH|exact Hc].
Qed.

Lemma lstrip_rstrip_fixed s :
  match s with EmptyString => True | String c _ => is_space c = false end →
  lstrip (rstrip s) = rstrip s.
Proof.
  destruct s as [|c r]; [done|]. intros Hc.
  rewrite (rstrip_cons_keep c r Hc). simpl. by rewrite Hc.
Qed.

(** [strip] is idempotent. *)
Lemma strip_idem s : strip (strip s) = strip s.
Proof.
  unfold strip. rewrite (lstrip_rstrip_fixed (lstrip s) (lstrip_head s)).
  apply rstrip_idem.
Qed.

Lemma text_after_colon_stripped line :
  strip (text_after_colon line) = text_after_colon line.
Proof.
  unfold text_after_colon. destruct (split1 colon line) as [|a [|b r]]; try reflexivity.
  apply strip_idem.
Qed.

Lemma last_value_stripped branch lines :
  strip (last_value branch lines) = last_value branch lines.
Proof.
  unfold last_value, last_value_or. destruct (last_line branch lines); [|reflexivity].
  apply text_after_colon_stripped.
Qed.



End ParserMore.





(** X3. The three fields that the parser returns carry no leading and no
    trailing white space: each is left unchanged by [strip]. *)
Theorem parse_fields_stripped (query : string) :
  ∃ info,
    TutorAgent.parse_student_info query = Ok info
    ∧ Py.strip (TutorAgent.topic info) = TutorAgent.topic info
    ∧ Py.strip (TutorAgent.student_background info) = TutorAgent.student_background info
    ∧ Py.strip (TutorAgent.student_goals info) = TutorAgent.student_goals info.
Proof.
  exists (Query.info_of query). split; [apply parse_student_info_spec|].
  simpl. repeat split; apply last_value_stripped.
Qed.

(** ** The agent and its tools *)

Section AgentMore.
Import Py PyFormat TutorAgent Query.












End AgentMore.








(** X8. The text that [get_formatted_response] makes starts with
    ["Error: "] exactly when the result is an error dict: the text of a plan
    starts with its title. *)
Theorem formatted_error_prefix (result : TutorAgent.Result) :
  String.prefix "Error: " (TutorAgent.get_formatted_response result) = true
  ↔ ∃ error, result = TutorAgent.ErrorResult error.
Proof.
  destruct result as [error|assessment plan]; simpl.
  - split; [eauto|]. intros _. destruct error; reflexivity.
  - split; [discriminate|]. intros [error [=]].
Qed.

(** ** The store and the handlers *)

Section Frames.
Context {A : Type}.
Implicit Types (m : Manager A).

Lemma same_elsewhere_refl task_id m : same_elsewhere task_id m m.
Proof. intros other _. done. Qed.

Lemma same_elsewhere_trans task_id m1 m2 m3 :
  same_elsewhere task_id m1 m2 → same_elsewhere task_id m2 m3 →
  same_elsewhere task_id m1 m3.
Proof.
  intros H12 H23 other Hne.
  destruct (H12 other Hne) as [Ht Hh]. destruct (H23 other Hne) as [Ht' Hh'].
  split; congruence.
Qed.

Lemma keeps_ret {S T : Type} (rel : S → S → Prop) (v : T) :
  (∀ s, rel s s) → keeps rel (ret v).
Proof. intros Hrefl s. apply Hrefl. Qed.

Lemma keeps_lift {S T : Type} (rel : S → S → Prop) (o : Outcome T) :
  (∀ s, rel s s) → keeps rel (lift o).
Proof. intros Hrefl s. apply Hrefl. Qed.

Lemma keeps_bind {S T U : Type} (rel : S → S → Prop) (c : M S T) (k : T → M S U) :
  (∀ s1 s2 s3, rel s1 s2 → rel s2 s3 → rel s1 s3) →
  keeps rel c → (∀ v, keeps rel (k v)) → keeps rel (bind c k).
Proof.
  intros Htrans Hc Hk s. unfold bind. specialize (Hc s).
  destruct (c s) as [s' [v|e]]; simpl in *; [|exact Hc].
  eapply Htrans; [exact Hc|apply Hk].
Qed.

Lemma keeps_try_except {S T : Type} (rel : S → S → Prop) (c : M S T)
    (handler : Exception → M S T) :
  (∀ s1 s2 s3, rel s1 s2 → rel s2 s3 → rel s1 s3) →
  keeps rel c → (∀ e, keeps rel (handler e)) → keeps rel (try_except c handler).
Proof.
  intros Htrans Hc Hh s. unfold try_except. specialize (Hc s).
  destruct (c s) as [s' [v|e]]; simpl in *; [exact Hc|].
  eapply Htrans; [exact Hc|apply Hh].
Qed.

Lemma keeps_on_agent {T : Type} task_id (c : M A T) :
  keeps (same_elsewhere task_id) (on_agent c).
Proof. intros m. unfold on_agent. destruct (c (agent m)). intros other _. done. Qed.

Lemma keeps_upsert_task (p : TaskSendParams.t) :
  keeps (same_elsewhere (TaskSendParams.id p)) (upsert_task (A := A) p).
Proof.
  intros m. unfold upsert_task.
  destruct (tasks m !! TaskSendParams.id p); simpl; [apply same_elsewhere_refl|].
  intros other Hne. simpl. by rewrite !lookup_insert_ne.
Qed.

Lemma keeps_update_store task_id status artifacts :
  keeps (same_elsewhere task_id) (_update_store (A := A) task_id status artifacts).
Proof.
  intros m. unfold _update_store, bind, find_task, store_task, append_message, ret.
  destruct (tasks m !! task_id) as [task|]; simpl; [|apply same_elsewhere_refl].
  destruct (TaskStatus.message status) as [msg|]; simpl.
  - destruct (task_messages m !! task_id) as [history|]; simpl.
    + destruct artifacts; simpl; intros other Hne; simpl;
        by rewrite ?lookup_insert_ne.
    + intros other Hne. simpl. by rewrite ?lookup_insert_ne.
  - destruct artifacts; simpl; intros other Hne; simpl; by rewrite ?lookup_insert_ne.
Qed.

Lemma keeps_invoke {R : Type} (agent_invoke : string → string → M A R)
    (agent_get_formatted_response : R → M A string) (request : SendTaskRequest.t) :
  keeps (same_elsewhere (TaskSendParams.id (SendTaskRequest.params request)))
        (_invoke agent_invoke agent_get_formatted_response request).
Proof.
  unfold _invoke.
  apply keeps_bind; [apply same_elsewhere_trans| |intros query].
  { apply keeps_lift, same_elsewhere_refl. }
  apply keeps_try_except; [apply same_elsewhere_trans| |intros e].
  - apply keeps_bind; [apply same_elsewhere_trans|apply keeps_on_agent|intros result].
    apply keeps_bind; [apply same_elsewhere_trans|apply keeps_on_agent|intros text].
    apply keeps_bind; [apply same_elsewhere_trans|apply keeps_update_store|intros task].
    apply keeps_ret, same_elsewhere_refl.
  - apply keeps_bind; [apply same_elsewhere_trans|apply keeps_update_store|intros task].
    apply keeps_ret, same_elsewhere_refl.
Qed.

Lemma keeps_on_send_task {R : Type} (agent_invoke : string → string → M A R)
    (agent_get_formatted_response : R → M A string) (request : SendTaskRequest.t) :
  keeps (same_elsewhere (TaskSendParams.id (SendTaskRequest.params request)))
        (on_send_task agent_invoke agent_get_formatted_response request).
Proof.
  unfold on_send_task. destruct (negb _).
  - apply keeps_ret, same_elsewhere_refl.
  - apply keeps_bind; [apply same_elsewhere_trans|apply keeps_upsert_task|intros _].
    apply keeps_invoke.
Qed.

(** The two outcomes of [_get_user_query]. *)
Lemma get_user_query_cases (p : TaskSendParams.t) :
  (∃ query, _get_user_query p = Ok query)
  ∨ _get_user_query p = Raise (ValueError "Only text parts are supported").
Proof.
  unfold _get_user_query. destruct (TaskSendParams.message p) as [msg|]; [|eauto].
  destruct (Message.parts msg) as [|[text|type] rest]; eauto.
Qed.

End Frames.

(** X9. The outcomes of [on_send_task], for any agent and any store.  With
    incompatible modes it returns the error response under the id of the
    request and changes nothing.  Otherwise, if the first message part is
    not a text, it raises [ValueError "Only text parts are supported"], and
    nothing else is ever raised.  Otherwise it returns a response under the
    id of the request that wraps the stored task, whose status is
    [COMPLETED] or [FAILED], without a message: a returned task is never left
    pending. *)
Theorem on_send_task_outcomes {A R : Type}
    (agent_invoke : string → string → M A R)
    (agent_get_formatted_response : R → M A string)
    (m : Manager A) (request : SendTaskRequest.t) :
  let params := SendTaskRequest.params request in
  let compatible :=
    are_modalities_compatible (TaskSendParams.acceptedOutputModes params)
      TutorAgent.SUPPORTED_CONTENT_TYPES in
  let out := on_send_task agent_invoke agent_get_formatted_response request m in
  (compatible = false
   ∧ out = (m, Ok {| SendTaskResponse.id := SendTaskRequest.id request;
                     SendTaskResponse.result := None;
                     SendTaskResponse.error := Some IncompatibleContentTypes |}))
  ∨ (compatible = true
     ∧ _get_user_query params = Raise (ValueError "Only text parts are supported")
     ∧ snd out = Raise (ValueError "Only text parts are supported"))
  ∨ (compatible = true
     ∧ ∃ query task,
         _get_user_query params = Ok query
         ∧ snd out = Ok {| SendTaskResponse.id := SendTaskRequest.id request;
                           SendTaskResponse.result := Some task;
                           SendTaskResponse.error := None |}
         ∧ tasks (fst out) !! TaskSendParams.id params = Some task
         ∧ (Task.status task = completed_status ∨ Task.status task = failed_status)).
Proof.
  intros params compatible out. subst out.
  destruct compatible eqn:Hc; subst compatible.
  2: { left. split; [done|]. unfold on_send_task. fold params. rewrite Hc. reflexivity. }
  right. rewrite on_send_task_compatible by exact Hc. fold params.
  destruct (upsert_task_spec params m) as (m1 & task1 & E & _ & Hlookup & _).
  rewrite E. simpl.
  destruct (get_user_query_cases params) as [[query Hq]|Hq].
  2: { left. split; [done|]. split; [done|].
       unfold _invoke, bind, lift. fold params. rewrite Hq. reflexivity. }
  right. split; [done|]. exists query.
  destruct (agent_invoke query (TaskSendParams.sessionId params) (agent m1))
    as [a1 [result|e]] eqn:Hinv.
  - destruct (agent_get_formatted_response result a1) as [a2 [text|e]] eqn:Hfmt.
    + destruct (invoke_completes agent_invoke agent_get_formatted_response request m1
                  query task1 a1 result a2 text Hq Hlookup Hinv Hfmt)
        as (m' & task & E' & _ & Hl & Hs & _).
      exists task. rewrite E'. simpl. auto.
    + destruct (invoke_fails agent_invoke agent_get_formatted_response request m1
                  query task1 a2 e Hq Hlookup)
        as (m' & task & E' & _ & Hl & Hs & _); [right; eauto|].
      exists task. rewrite E'. simpl. auto.
  - destruct (invoke_fails agent_invoke agent_get_formatted_response request m1
                query task1 a1 e Hq Hlookup)
      as (m' & task & E' & _ & Hl & Hs & _); [left; eauto|].
    exists task. rewrite E'. simpl. auto.
Qed.

(** X10. [on_send_task] changes nothing under any other task id: whatever
    the request, the agent and the outcome, every other task and every other
    message history of the store is the same after the call. *)
Theorem on_send_task_frame {A R : Type}
    (agent_invoke : string → string → M A R)
    (agent_get_formatted_response : R → M A string)
    (m : Manager A) (request : SendTaskRequest.t) (other : string) :
  other ≠ TaskSendParams.id (SendTaskRequest.params request) →
  let m' := fst (on_send_task agent_invoke agent_get_formatted_response request m) in
  tasks m' !! other = tasks m !! other
  ∧ task_messages m' !! other = task_messages m !! other.
Proof.
  intros Hne. exact (keeps_on_send_task agent_invoke agent_get_formatted_response
                       request m other Hne).
Qed.

Lemma on_send_task_frame_witness :
  let m' := fst (tutor_on_send_task Sample.world
                   (Sample.request "task-2" [TextPart Sample.ml_query] ["text"])
                   Sample2.completed_store) in
  tasks m' !! "task-1" = Some Sample2.completed_task
  ∧ task_messages m' !! "task-1"
    = Some [ {| Message.role := "user"; Message.parts := [] |} ].
Proof.
  apply (on_send_task_frame (TutorAgent.invoke Sample.world)
           (λ result, ret (TutorAgent.get_formatted_response result))
           Sample2.completed_store
           (Sample.request "task-2" [TextPart Sample.ml_query] ["text"]) "task-1").
  discriminate.
Defined.

Section TutorRequests.
Import TutorAgent.

(** [invoke] always returns a dict. *)
Lemma invoke_returns w query session_id a :
  ∃ a' result, invoke w query session_id a = (a', Ok result).
Proof.
  rewrite invoke_unfold. destruct (String.eqb _ _); [by eexists _, _|].
  destruct (generate_caught w (with_defaults (Query.info_of query)) a)
    as (a' & result & E & _). by exists a', result.
Qed.

(** A request with compatible modes and an extracted query, sent to a
    manager that holds the tutor agent. *)
Lemma tutor_request_completes w (m : Manager Agent) request query :
  are_modalities_compatible
    (TaskSendParams.acceptedOutputModes (SendTaskRequest.params request))
    SUPPORTED_CONTENT_TYPES = true →
  _get_user_query (SendTaskRequest.params request) = Ok query →
  ∃ m' task a' result,
    invoke w query (TaskSendParams.sessionId (SendTaskRequest.params request)) (agent m)
    = (a', Ok result)
    ∧ tutor_on_send_task w request m
      = (m', Ok (task_response (SendTaskRequest.id request) task))
    ∧ agent m' = a'
    ∧ tasks m' !! TaskSendParams.id (SendTaskRequest.params request) = Some task
    ∧ Task.status task = completed_status
    ∧ Task.artifacts task
      = Some (artifacts_of m (TaskSendParams.id (SendTaskRequest.params request))
              ++ [text_artifact (get_formatted_response result)])%list.
Proof.
  intros Hcompat Hquery. unfold tutor_on_send_task.
  rewrite on_send_task_compatible by exact Hcompat.
  destruct (upsert_task_spec (SendTaskRequest.params request) m)
    as (m1 & task1 & E & Hagent & Hlookup & Hart & _).
  rewrite E. simpl.
  destruct (invoke_returns w query
              (TaskSendParams.sessionId (SendTaskRequest.params request)) (agent m))
    as (a' & result & Hinv).
  destruct (invoke_completes (invoke w) (λ result, ret (get_formatted_response result))
              request m1 query task1 a' result a' (get_formatted_response result)
              Hquery Hlookup)
    as (m' & task & E' & Ha' & Hl & Hs & Ha & _); [by rewrite Hagent|reflexivity|].
  exists m', task, a', result. rewrite Hart in Ha. done.
Qed.

End TutorRequests.

(** X11. With the tutor agent the [except] branch of [_invoke] is never
    taken: for every request with compatible modes from which a query is
    extracted, every store and every state of the agent, the response wraps
    the task in state [COMPLETED], never [FAILED], and the one artifact that
    is added holds the text that [get_formatted_response] makes of the
    result of [invoke], be it a plan or an error dict. *)
Theorem tutor_request_always_completed (w : TutorAgent.World)
    (m : Manager TutorAgent.Agent) (request : SendTaskRequest.t) (query : string) :
  let params := SendTaskRequest.params request in
  are_modalities_compatible (TaskSendParams.acceptedOutputModes params)
    ["text"; "text/plain"] = true →
  _get_user_query params = Ok query →
  ∃ m' task a' result,
    TutorAgent.invoke w query (TaskSendParams.sessionId params) (agent m) = (a', Ok result)
    ∧ tutor_on_send_task w request m
      = (m', Ok {| SendTaskResponse.id := SendTaskRequest.id request;
                   SendTaskResponse.result := Some task;
                   SendTaskResponse.error := None |})
    ∧ agent m' = a'
    ∧ Task.status task = {| TaskStatus.state := COMPLETED; TaskStatus.message := None |}
    ∧ Task.artifacts task
      = Some (artifacts_of m (TaskSendParams.id params)
              ++ [ {| Artifact.parts :=
                        [TextPart (TutorAgent.get_formatted_response result)] |} ])%list.
Proof.
  intros params Hcompat Hquery.
  destruct (tutor_request_completes w m request query Hcompat Hquery)
    as (m' & task & a' & result & Hinv & E & Ha & _ & Hs & Hart).
  exists m', task, a', result. done.
Qed.

Lemma tutor_request_always_completed_witness :
  ∃ m' task,
    tutor_on_send_task Sample.world
      (Sample.request "task-2" [TextPart Sample.ml_query] ["text/plain"])
      Sample2.completed_store
    = (m', Ok {| SendTaskResponse.id := "rpc-1";
                 SendTaskResponse.result := Some task;
                 SendTaskResponse.error := None |})
    ∧ Task.status task = {| TaskStatus.state := COMPLETED; TaskStatus.message := None |}.
Proof.
  destruct (tutor_request_always_completed Sample.world Sample2.completed_store
              (Sample.request "task-2" [TextPart Sample.ml_query] ["text/plain"])
              Sample.ml_query eq_refl eq_refl)
    as (m' & task & a' & result & _ & E & _ & Hs & _).
  exists m', task. split; [exact E|exact Hs].
Defined.

(** X12. A request with compatible modes that carries no message, or a
    message without parts, is handled as an empty query: the task is
    [COMPLETED], the artifact that is added holds
    ["Error: Please specify a topic of interest."], and the agent is left as
    it was. *)
Theorem empty_message_asks_for_topic (w : TutorAgent.World)
    (m : Manager TutorAgent.Agent) (request : SendTaskRequest.t) :
  let params := SendTaskRequest.params request in
  are_modalities_compatible (TaskSendParams.acceptedOutputModes params)
    ["text"; "text/plain"] = true →
  (TaskSendParams.message params = None
   ∨ ∃ msg, TaskSendParams.message params = Some msg ∧ Message.parts msg = []) →
  ∃ m' task,
    tutor_on_send_task w request m
    = (m', Ok {| SendTaskResponse.id := SendTaskRequest.id request;
                 SendTaskResponse.result := Some task;
                 SendTaskResponse.error := None |})
    ∧ agent m' = agent m
    ∧ Task.status task = {| TaskStatus.state := COMPLETED; TaskStatus.message := None |}
    ∧ Task.artifacts task
      = Some (artifacts_of m (TaskSendParams.id params)
              ++ [ {| Artifact.parts :=
                        [TextPart "Error: Please specify a topic of interest."] |} ])%list.
Proof.
  intros params Hcompat Hempty.
  assert (Hquery : _get_user_query params = Ok "").
  { unfold _get_user_query. destruct Hempty as [->|(msg & -> & ->)]; reflexivity. }
  destruct (tutor_request_completes w m request "" Hcompat Hquery)
    as (m' & task & a' & result & Hinv & E & Ha & _ & Hs & Hart).
  rewrite (invoke_no_topic w "" _ (agent m) eq_refl) in Hinv.
  injection Hinv as <- <-. exists m', task. done.
Qed.

Lemma empty_message_asks_for_topic_witness :
  ∃ m' task,
    tutor_on_send_task Sample.world (Sample.request "task-1" [] ["text"]) new_manager
    = (m', Ok {| SendTaskResponse.id := "rpc-1";
                 SendTaskResponse.result := Some task;
                 SendTaskResponse.error := None |})
    ∧ Task.artifacts task
      = Some [ {| Artifact.parts :=
                    [TextPart "Error: Please specify a topic of interest."] |} ].
Proof.
  destruct (empty_message_asks_for_topic Sample.world new_manager
              (Sample.request "task-1" [] ["text"]) eq_refl
              (or_intror (ex_intro _ {| Message.role := "user"; Message.parts := [] |}
                            (conj eq_refl eq_refl))))
    as (m' & task & E & _ & _ & Hart).
  exists m', task. split; [exact E|exact Hart].
Defined.

(** X13. Sending a request again under the same task id does not start
    over: the second response carries the artifacts of the first followed by
    one new artifact, and the status is written again. *)
Theorem resend_accumulates_artifacts (w1 w2 : TutorAgent.World)
    (m : Manager TutorAgent.Agent) (request : SendTaskRequest.t) (query : string) :
  let params := SendTaskRequest.params request in
  are_modalities_compatible (TaskSendParams.acceptedOutputModes params)
    ["text"; "text/plain"] = true →
  _get_user_query params = Ok query →
  ∃ m1 task1 m2 task2 text,
    tutor_on_send_task w1 request m
    = (m1, Ok {| SendTaskResponse.id := SendTaskRequest.id request;
                 SendTaskResponse.result := Some task1;
                 SendTaskResponse.error := None |})
    ∧ tutor_on_send_task w2 request m1
      = (m2, Ok {| SendTaskResponse.id := SendTaskRequest.id request;
                   SendTaskResponse.result := Some task2;
                   SendTaskResponse.error := None |})
    ∧ Task.artifacts task2
      = Some (default [] (Task.artifacts task1)
              ++ [ {| Artifact.parts := [TextPart text] |} ])%list
    ∧ length (default [] (Task.artifacts task2))
      = S (length (default [] (Task.artifacts task1)))
    ∧ Task.status task2 = {| TaskStatus.state := COMPLETED; TaskStatus.message := None |}.
Proof.
  intros params Hcompat Hquery.
  destruct (tutor_request_completes w1 m request query Hcompat Hquery)
    as (m1 & task1 & a1 & r1 & _ & E1 & _ & Hl1 & _ & _).
  destruct (tutor_request_completes w2 m1 request query Hcompat Hquery)
    as (m2 & task2 & a2 & r2 & _ & E2 & _ & _ & Hs2 & Hart2).
  exists m1, task1, m2, task2, (TutorAgent.get_formatted_response r2).
  unfold artifacts_of in Hart2. rewrite Hl1 in Hart2.
  split; [exact E1|]. split; [exact E2|]. split; [exact Hart2|]. split; [|exact Hs2].
  rewrite Hart2. simpl. rewrite length_app. simpl. lia.
Qed.

Lemma resend_accumulates_artifacts_witness :
  ∃ m1 task1 m2 task2,
    tutor_on_send_task Sample.world
      (Sample.request "task-1" [TextPart "hello"] ["text"]) new_manager
    = (m1, Ok {| SendTaskResponse.id := "rpc-1";
                 SendTaskResponse.result := Some task1;
                 SendTaskResponse.error := None |})
    ∧ tutor_on_send_task Sample.world
        (Sample.request "task-1" [TextPart "hello"] ["text"]) m1
      = (m2, Ok {| SendTaskResponse.id := "rpc-1";
                   SendTaskResponse.result := Some task2;
                   SendTaskResponse.error := None |})
    ∧ length (default [] (Task.artifacts task2))
      = S (length (default [] (Task.artifacts task1))).
Proof.
  destruct (resend_accumulates_artifacts Sample.world Sample.world new_manager
              (Sample.request "task-1" [TextPart "hello"] ["text"]) "hello"
              eq_refl eq_refl)
    as (m1 & task1 & m2 & task2 & text & E1 & E2 & _ & Hlen & _).
  exists m1, task1, m2, task2. split; [exact E1|]. split; [exact E2|exact Hlen].
Defined.

(** X14. [_update_store] never creates and never deletes an entry: after
    any call, successful or not, the store holds the same task ids and the
    same ids with a message history, and the agent is the same. *)
Theorem update_store_keeps_ids {A : Type} (m : Manager A) (task_id : string)
    (status : TaskStatus.t) (artifacts : option (list Artifact.t)) :
  let m' := fst (_update_store task_id status artifacts m) in
  (dom (tasks m') : gset string) = dom (tasks m)
  ∧ (dom (task_messages m') : gset string) = dom (task_messages m)
  ∧ agent m' = agent m.
Proof.
  unfold _update_store, bind, find_task, store_task, append_message, ret.
  destruct (tasks m !! task_id) as [task|] eqn:Hfound; simpl; [|done].
  assert (Hin : task_id ∈ (dom (tasks m) : gset string)) by (apply elem_of_dom; eauto).
  assert (Hu : ∀ X : gset string, task_id ∈ X → {[task_id]} ∪ X = X).
  { intros X HX. apply subseteq_union_1_L, singleton_subseteq_l, HX. }
  destruct (TaskStatus.message status) as [msg|]; simpl.
  - destruct (task_messages m !! task_id) as [history|] eqn:Hh; simpl.
    + assert (Hinh : task_id ∈ (dom (task_messages m) : gset string))
        by (apply elem_of_dom; eauto).
      destruct artifacts; simpl; rewrite !dom_insert_L;
        rewrite !(Hu (dom (tasks m))), (Hu (dom (task_messages m))) by done; done.
    + rewrite !dom_insert_L, !(Hu (dom (tasks m))) by done. done.
  - destruct artifacts; simpl; rewrite !dom_insert_L, !(Hu (dom (tasks m))) by done; done.
Qed.

(** X15. An update of a stored task that has a message history appends the
    message of the new status, if it carries one, at the end of that
    history and nowhere else, writes the status over the old one whatever it
    was, and, given no artifacts, leaves the artifacts of the task as they
    were. *)
Theorem update_store_appends_message {A : Type} (m : Manager A) (task_id : string)
    (task : Task.t) (history : list Message.t) (status : TaskStatus.t) :
  tasks m !! task_id = Some task →
  task_messages m !! task_id = Some history →
  ∃ m',
    _update_store task_id status None m
    = (m', Ok {| Task.id := Task.id task;
                 Task.sessionId := Task.sessionId task;
                 Task.status := status;
                 Task.artifacts := Task.artifacts task |})
    ∧ tasks m' !! task_id
      = Some {| Task.id := Task.id task;
                Task.sessionId := Task.sessionId task;
                Task.status := status;
                Task.artifacts := Task.artifacts task |}
    ∧ task_messages m' !! task_id
      = Some (history ++ option_list (TaskStatus.message status))%list
    ∧ ∀ other, other ≠ task_id →
        task_messages m' !! other = task_messages m !! other.
Proof.
  intros Hfound Hh.
  unfold _update_store, bind, find_task, store_task, append_message, ret.
  rewrite Hfound. simpl.
  destruct (TaskStatus.message status) as [msg|]; simpl.
  - rewrite Hh. simpl. eexists. split; [reflexivity|]. simpl.
    rewrite !lookup_insert_eq. repeat split.
    intros other Hne. by rewrite lookup_insert_ne.
  - eexists. split; [reflexivity|]. simpl.
    rewrite lookup_insert_eq, Hh, app_nil_r. done.
Qed.

Lemma update_store_appends_message_witness :
  ∃ m',
    _update_store "task-1"
      {| TaskStatus.state := SUBMITTED; TaskStatus.message := Some Sample2.working_message |}
      None Sample2.completed_store
    = (m', Ok {| Task.id := "task-1";
                 Task.sessionId := "session-1";
                 Task.status := {| TaskStatus.state := SUBMITTED;
                                   TaskStatus.message := Some Sample2.working_message |};
                 Task.artifacts := Some [text_artifact "done"] |})
    ∧ task_messages m' !! "task-1"
      = Some [ {| Message.role := "user"; Message.parts := [] |};
               Sample2.working_message ].
Proof.
  destruct (update_store_appends_message Sample2.completed_store "task-1"
              Sample2.completed_task
              [ {| Message.role := "user"; Message.parts := [] |} ]
              {| TaskStatus.state := SUBMITTED;
                 TaskStatus.message := Some Sample2.working_message |}
              eq_refl eq_refl)
    as (m' & E & _ & Hh & _).
  exists m'. split; [exact E|exact Hh].
Defined.

(** X16. [on_send_task_subscribe] has two outcomes, for any store: an error
    of [_validate_request] is returned as it is and nothing changes, not
    even by an upsert; otherwise [NotImplementedError] is raised.  It never
    returns a task, and the agent is the same after the call. *)
Theorem subscribe_outcomes {A : Type}
    (_validate_request : SendTaskRequest.t → option SendTaskResponse.t)
    (m : Manager A) (request : SendTaskRequest.t) :
  let out := on_send_task_subscribe _validate_request request m in
  ((∃ error, _validate_request request = Some error ∧ out = (m, Ok error))
   ∨ (_validate_request request = None
      ∧ snd out = Raise (NotImplementedError "Streaming is not supported by TutorAgent")))
  ∧ agent (fst out) = agent m.
Proof.
  unfold on_send_task_subscribe.
  destruct (_validate_request request) as [error|]; simpl.
  - split; [left; eauto|reflexivity].
  - unfold bind, raise.
    destruct (upsert_task_spec (SendTaskRequest.params request) m)
      as (m' & task & E & Hagent & _).
    rewrite E. simpl. split; [right; done|exact Hagent].
Qed.

(** ** The environment dump *)

(** X17. The dict that the debug server logs does not depend on the values
    of the variables whose names contain [API_KEY], [SECRET] or [TOKEN]: two
    environments with the same names and the same values under all other
    names give the same dict. *)
Theorem env_vars_hides_secrets (environ1 environ2 : gmap string string) :
  (dom environ1 : gset string) = dom environ2 →
  (∀ k, DebugServer.is_sensitive k = false → environ1 !! k = environ2 !! k) →
  DebugServer.env_vars environ1 = DebugServer.env_vars environ2.
Proof.
  intros Hdom Hsame. apply map_eq. intros k. unfold DebugServer.env_vars.
  rewrite !map_lookup_imap.
  destruct (environ1 !! k) as [v1|] eqn:E1, (environ2 !! k) as [v2|] eqn:E2; simpl.
  - destruct (DebugServer.is_sensitive k) eqn:Hs; [reflexivity|].
    specialize (Hsame k Hs). congruence.
  - assert (k ∈ dom environ1) as Hin by (apply elem_of_dom; eauto).
    rewrite Hdom in Hin. apply elem_of_dom in Hin as [v Hv]. congruence.
  - assert (k ∈ dom environ2) as Hin by (apply elem_of_dom; eauto).
    rewrite <- Hdom in Hin. apply elem_of_dom in Hin as [v Hv]. congruence.
  - reflexivity.
Qed.

Lemma env_vars_hides_secrets_witness :
  DebugServer.env_vars (<["GOOGLE_API_KEY" := "key-one"]> {[ "HOME" := "/root" ]})
  = DebugServer.env_vars (<["GOOGLE_API_KEY" := "key-two"]> {[ "HOME" := "/root" ]}).
Proof.
  apply env_vars_hides_secrets.
  - rewrite !dom_insert_L. reflexivity.
  - intros k Hk. destruct (decide (k = "GOOGLE_API_KEY")) as [->|Hne].
    + vm_compute in Hk. discriminate Hk.
    + rewrite !lookup_insert_ne by done. reflexivity.
Defined.

(** In the logged dict every name of the environment is present, a variable
    whose name contains none of the three markers keeps its value, and any
    other one shows ["***"]. *)
Lemma env_vars_lookup (environ : gmap string string) (k : string) :
  DebugServer.env_vars environ !! k
  = (λ v, if DebugServer.is_sensitive k then "***" else v) <$> environ !! k.
Proof.
  unfold DebugServer.env_vars. rewrite map_lookup_imap.
  destruct (environ !! k); reflexivity.
Qed.

(** ** What the result of the agent depends on *)

Section Dependence.
Import TutorAgent.


End Dependence.


